(** * tiny-workloads: the sizing rules, the aggregator and the manifest
      generator of [main.go], embedded in Rocq.

    Go's [int] is the 64-bit signed integer of the release targets (amd64
    and arm64), modelled as [Z] with its wrap-around written out; [float64]
    is Rocq's primitive binary64 float; a Go [string] is a [string] of
    bytes; [map[string]TimedResult] is a [gmap string TimedResult], and a
    nil map is [None]; an [error] is its message, and a nil error is
    [None].

    The clock and the scheduler are inputs of the model: a rule takes the
    elapsed time it measures, and the aggregator the order in which the
    three results arrive. The file system is a state threaded through
    [generateAndWriteManifest]. Of [Update], the two cases that take the
    answer of the background processing are modelled; the wizard's
    keyboard, tick and resize cases are presentation. *)

From Stdlib Require Import ZArith String Ascii List Floats Uint63 DecimalString.
From stdpp Require Import base option list gmap strings.

Local Open Scope string_scope.
Local Open Scope Z_scope.

(** ** Machine integers *)

Module Int.
Definition min_int : Z := - 2 ^ 63.
Definition max_int : Z := 2 ^ 63 - 1.

(** The values a Go [int] can hold. *)
Definition in_range (z : Z) : Prop := min_int <= z <= max_int.

(** Two's complement wrap-around of an exact result. *)
Definition wrap (z : Z) : Z := (z + 2 ^ 63) mod 2 ^ 64 - 2 ^ 63.

Definition add (a b : Z) : Z := wrap (a + b).

(** Go's [/] on integers truncates toward zero. *)
Definition div (a b : Z) : Z := wrap (Z.quot a b).

(** [float64(x)] for an [int] x: the nearest binary64 value. *)
Definition to_float64 (z : Z) : float :=
  if z =? min_int then (- Z.ldexp one 63)%float
  else if z <? 0 then (- of_uint63 (Uint63.of_Z (- z)))%float
  else of_uint63 (Uint63.of_Z z).
End Int.

(** ** The part of package fmt the program uses *)

Definition error := string.
Definition time_Duration := Z.

Definition nl : string := String "010"%char "".
Definition dquote : string := String "034"%char "".

Module Fmt.

(** [%d]: decimal digits, with a leading minus sign below zero. *)
Definition formatInt (z : Z) : string := NilZero.string_of_int (Z.to_int z).

(** Nearest integer to [num / den] ([den > 0]), ties to even. *)
Definition round_half_even (num den : Z) : Z :=
  let q := num / den in
  let r := num mod den in
  match 2 * r ?= den with
  | Lt => q
  | Gt => q + 1
  | Eq => if Z.even q then q else q + 1
  end.

(** The magnitude [m * 2^e], in hundredths, rounded as strconv rounds the
    exact decimal expansion of a binary64 value. *)
Definition hundredths (m : positive) (e : Z) : Z :=
  if 0 <=? e then Z.pos m * 2 ^ e * 100
  else round_half_even (Z.pos m * 100) (2 ^ (- e)).

Definition pad2 (n : Z) : string :=
  if n <? 10 then "0" ++ formatInt n else formatInt n.

Definition fixed2 (h : Z) : string :=
  formatInt (h / 100) ++ "." ++ pad2 (h mod 100).

Definition sign (s : bool) : string := if s then "-" else "".

(** [%.2f] *)
Definition formatFloat2 (f : float) : string :=
  match Prim2SF f with
  | S754_nan => "NaN"
  | S754_infinity s => if s then "-Inf" else "+Inf"
  | S754_zero s => sign s ++ "0.00"
  | S754_finite s m e => sign s ++ fixed2 (hundredths m e)
  end.

(** [time.Duration.String]: the fraction of [v / 10^prec] without its
    trailing zeros, and the integer part left over. *)
Fixpoint fmtFrac (prec : nat) (v : Z) (printing : bool) (acc : string)
  : string * Z :=
  match prec with
  | O => (if printing then "." ++ acc else acc, v)
  | S prec' =>
      let digit := v mod 10 in
      let printing := printing || negb (digit =? 0) in
      fmtFrac prec' (v / 10) printing
        (if printing then formatInt digit ++ acc else acc)
  end.

(** The magnitude [u] of a duration in nanoseconds, [0 <= u <= 2^63]. *)
Definition formatDurationAbs (u : Z) : string :=
  if u <? 1000000000 then
    if u =? 0 then "0s"
    else if u <? 1000 then formatInt u ++ "ns"
    else if u <? 1000000 then
      let '(frac, w) := fmtFrac 3 u false "" in
      formatInt w ++ frac ++ String "194"%char (String "181"%char "s")
    else
      let '(frac, w) := fmtFrac 6 u false "" in
      formatInt w ++ frac ++ "ms"
  else
    let '(frac, secs) := fmtFrac 9 u false "" in
    let s := formatInt (secs mod 60) ++ frac ++ "s" in
    let mins := secs / 60 in
    if 0 <? mins then
      let ms := formatInt (mins mod 60) ++ "m" ++ s in
      let hours := mins / 60 in
      if 0 <? hours then formatInt hours ++ "h" ++ ms else ms
    else s.

Definition formatDuration (d : time_Duration) : string :=
  if d <? 0 then "-" ++ formatDurationAbs (- d) else formatDurationAbs d.

(** [%v] of a [[]int]: the elements between brackets, separated by one
    space. *)
Fixpoint joinInts (l : list Z) : string :=
  match l with
  | [] => ""
  | [x] => formatInt x
  | x :: rest => formatInt x ++ " " ++ joinInts rest
  end.

Definition formatInts (l : list Z) : string := "[" ++ joinInts l ++ "]".

(** The operands the program passes to [Sprintf] and [Errorf]. *)
Inductive arg : Type :=
| AString (s : string)
| AInt (z : Z)
| AFloat (f : float)
| AError (e : option error)
| ADuration (d : time_Duration)
| AInts (l : list Z).

(** The verbs the program writes: [%s], [%d], [%v] and [%.2f]. *)
Inductive verb : Type := Vs | Vd | Vv | Vf2.

Definition verbName (v : verb) : string :=
  match v with Vs => "s" | Vd => "d" | Vv => "v" | Vf2 => "f" end.

(** One operand under one verb. The program pairs each verb with an
    operand of the kind the verb is for; the other pairs are fmt's
    [%!verb(...)] diagnostics, kept here as a bare [%!verb] mark. *)
Definition formatArg (v : verb) (a : arg) : string :=
  match v, a with
  | Vs, AString s | Vv, AString s => s
  | Vs, ADuration d | Vv, ADuration d => formatDuration d
  | Vs, AError (Some e) | Vv, AError (Some e) => e
  | Vv, AError None => "<nil>"
  | Vd, AInt z | Vv, AInt z => formatInt z
  | Vd, AInts l | Vv, AInts l => formatInts l
  | Vf2, AFloat f => formatFloat2 f
  | _, _ => "%!" ++ verbName v
  end.

(** Consume one operand for a verb; with none left fmt prints
    [%!verb(MISSING)]. *)
Definition directive (v : verb) (args : list arg) : string * list arg :=
  match args with
  | a :: args' => (formatArg v a, args')
  | [] => ("%!" ++ verbName v ++ "(MISSING)", [])
  end.

(** [fmt.Sprintf] for templates built from plain text and the four verbs
    above, every verb having an operand. *)
Fixpoint Sprintf (format : string) (args : list arg) : string :=
  match format with
  | String "%" (String "s" rest) =>
      let '(out, args') := directive Vs args in out ++ Sprintf rest args'
  | String "%" (String "d" rest) =>
      let '(out, args') := directive Vd args in out ++ Sprintf rest args'
  | String "%" (String "v" rest) =>
      let '(out, args') := directive Vv args in out ++ Sprintf rest args'
  | String "%" (String "." (String "2" (String "f" rest))) =>
      let '(out, args') := directive Vf2 args in out ++ Sprintf rest args'
  | String c rest => String c (Sprintf rest args)
  | EmptyString => ""
  end.

(** [fmt.Errorf]: an error carrying the formatted message. *)
Definition Errorf (format : string) (args : list arg) : error :=
  Sprintf format args.

End Fmt.

(** ** Data model *)

(** ConfigSpec: the application specifications provided as input. *)
Record ConfigSpec : Type := {
  AppName : string;
  ExpectedLoad : Z;
  DataSize : Z;
  NetworkTraffic : Z;
  ImportanceLevel : string
}.

Record ComputeSpec : Type := { CPU : float; Memory : string }.
Record NetworkSpec : Type := { Bandwidth : string; Ports : list Z }.
Record StorageSpec : Type := { Capacity : string; Class : string }.

(** TimedResult: the outcome and duration of one decision function. The
    three spec fields are named after their types in the source. *)
Record TimedResult : Type := {
  Name : string;
  Compute : ComputeSpec;
  Network : NetworkSpec;
  Storage : StorageSpec;
  Error : option error;
  Duration : time_Duration
}.

(** Go's zero values: what a struct literal leaves out, and what a map
    lookup of an absent key yields. *)
Definition zeroComputeSpec : ComputeSpec := {| CPU := 0%float; Memory := "" |}.
Definition zeroNetworkSpec : NetworkSpec := {| Bandwidth := ""; Ports := [] |}.
Definition zeroStorageSpec : StorageSpec := {| Capacity := ""; Class := "" |}.

Definition zeroTimedResult : TimedResult := {|
  Name := "";
  Compute := zeroComputeSpec;
  Network := zeroNetworkSpec;
  Storage := zeroStorageSpec;
  Error := None;
  Duration := 0
|}.

(** [timedResults[key]] *)
Definition index (timedResults : gmap string TimedResult) (key : string)
  : TimedResult :=
  default zeroTimedResult (timedResults !! key).

(** ** Rule engine

    Each rule runs in a goroutine of its own: it prints one line, sleeps,
    and sends one [TimedResult] on the result channel. [elapsed] is what
    [time.Since(startTime)] measures in that run. *)

Record Run : Type := { stdout : string; sent : TimedResult }.

Definition decideCompute (config : ConfigSpec) (elapsed : time_Duration) : Run :=
  let cpu := (Int.to_float64 (ExpectedLoad config) / 150)%float in
  let memory := "256Mi" in
  let '(cpu, memory) :=
    if ExpectedLoad config >? 300
    then ((cpu + 0.75)%float, "512Mi") else (cpu, memory) in
  let '(cpu, memory) :=
    if (ImportanceLevel config =? "high")%string
    then ((cpu + 0.25)%float, "1Gi") else (cpu, memory) in
  let memory :=
    if DataSize config >? 50
    then Fmt.Sprintf "%dMi"
           [Fmt.AInt (Int.add 256 (Int.div (DataSize config) 4))]
    else memory in
  {| stdout := Fmt.Sprintf ("Starting compute decision for %s..." ++ nl)
                 [Fmt.AString (AppName config)];
     sent := {| Name := "compute";
                Compute := {| CPU := cpu; Memory := memory |};
                Network := zeroNetworkSpec;
                Storage := zeroStorageSpec;
                Error := None;
                Duration := elapsed |} |}.

Definition decideNetwork (config : ConfigSpec) (elapsed : time_Duration) : Run :=
  let bandwidth := "50Mbps" in
  let ports := [8080] in
  let bandwidth := if NetworkTraffic config >? 25 then "200Mbps" else bandwidth in
  let ports :=
    if (ImportanceLevel config =? "high")%string
    then (ports ++ [443])%list else ports in
  {| stdout := Fmt.Sprintf ("Starting network decision for %s..." ++ nl)
                 [Fmt.AString (AppName config)];
     sent := {| Name := "network";
                Compute := zeroComputeSpec;
                Network := {| Bandwidth := bandwidth; Ports := ports |};
                Storage := zeroStorageSpec;
                Error := None;
                Duration := elapsed |} |}.

Definition decideStorage (config : ConfigSpec) (elapsed : time_Duration) : Run :=
  let capacity := "5Gi" in
  let class := "standard" in
  let '(capacity, class) :=
    if DataSize config >? 250
    then (Fmt.Sprintf "%dGi"
            [Fmt.AInt (Int.add 5 (Int.div (DataSize config) 100))],
          "premium")
    else (capacity, class) in
  let capacity :=
    if (ImportanceLevel config =? "high")%string then "20Gi" else capacity in
  {| stdout := Fmt.Sprintf ("Starting storage decision for %s..." ++ nl)
                 [Fmt.AString (AppName config)];
     sent := {| Name := "storage";
                Compute := zeroComputeSpec;
                Network := zeroNetworkSpec;
                Storage := {| Capacity := capacity; Class := class |};
                Error := None;
                Duration := elapsed |} |}.

(** ** Result aggregator *)

(** What a call of the aggregator comes to: it returns its two results, or
    it waits for ever on a channel nothing more is sent on. *)
Inductive outcome : Type :=
| Returned (timedResults : option (gmap string TimedResult)) (err : option error)
| Blocked.

(** The receive loop, [n] rounds to go, over the values as they arrive on
    [resultChan]. *)
Fixpoint collectLoop (n : nat) (resultChan : list TimedResult)
    (timedResults : gmap string TimedResult) : outcome :=
  match n with
  | O => Returned (Some timedResults) None
  | S n' =>
      match resultChan with
      | [] => Blocked
      | result :: resultChan' =>
          match Error result with
          | Some e =>
              Returned None
                (Some (Fmt.Errorf "error in %s decision: %v"
                         [Fmt.AString (Name result); Fmt.AError (Some e)]))
          | None =>
              collectLoop n' resultChan' (<[Name result := result]> timedResults)
          end
      end
  end.

(** The aggregator's loop on a channel whose values arrive in the order
    [arrivals]. *)
Definition collect (arrivals : list TimedResult) : outcome :=
  collectLoop 3 arrivals ∅.

(** The elapsed times the three goroutines measure in one run. *)
Record Timing : Type := {
  computeElapsed : time_Duration;
  networkElapsed : time_Duration;
  storageElapsed : time_Duration
}.

(** The three goroutines [collectTimedResourceSpecs] starts, in the order of
    the [go] statements. *)
Definition goroutines (config : ConfigSpec) (t : Timing) : list Run :=
  [ decideCompute config (computeElapsed t);
    decideNetwork config (networkElapsed t);
    decideStorage config (storageElapsed t) ].

(** The channel holds three values, so no send waits, and the values arrive
    in the order the scheduler lets the goroutines send them. A schedule
    names that order by the initials of compute, network and storage:
    under [NSC] the network result arrives first and the compute result
    last. *)
Inductive Schedule : Type :=
| CNS | CSN | NCS | NSC | SCN | SNC.

Definition deliver {A : Type} (s : Schedule) (sends : list A) : list A :=
  match sends with
  | [c; n; st] =>
      match s with
      | CNS => [c; n; st]
      | CSN => [c; st; n]
      | NCS => [n; c; st]
      | NSC => [n; st; c]
      | SCN => [st; c; n]
      | SNC => [st; n; c]
      end
  | _ => sends
  end.

(** [collectTimedResourceSpecs] in a run with the timing [t] and the
    schedule [s]. *)
Definition collectTimedResourceSpecs (config : ConfigSpec) (t : Timing)
    (s : Schedule) : outcome :=
  let resultChan := deliver s (sent <$> goroutines config t) in
  collect resultChan.

(** ** Manifest generator *)

(** The lines of a raw string literal, each closed by a line feed. *)
Definition lines (ls : list string) : string :=
  String.concat "" ((fun l => l ++ nl) <$> ls).

(** The float64 nearest to the constant [0.8]. *)
Definition f0_8 : float := 0x1.999999999999ap-1%float.

Definition portTemplate : string :=
  nl ++ lines [
    "          - containerPort: %d";
    "            protocol: TCP"
  ] ++ "        ".

Definition manifestTemplate : string :=
  nl ++ lines [
    "apiVersion: apps/v1";
    "kind: Deployment";
    "metadata:";
    "  name: %s-deployment";
    "spec:";
    "  replicas: 1";
    "  selector:";
    "    matchLabels:";
    "      app: %s";
    "  template:";
    "    metadata:";
    "      labels:";
    "        app: %s";
    "    spec:";
    "      containers:";
    "      - name: %s-container";
    "        image: your-app-image:latest # Replace with your actual image";
    "        resources:";
    "          requests:";
    "            cpu: " ++ dquote ++ "%.2f" ++ dquote;
    "            memory: " ++ dquote ++ "%s" ++ dquote;
    "          limits:";
    "            cpu: " ++ dquote ++ "%.2f" ++ dquote;
    "            memory: " ++ dquote ++ "%s" ++ dquote;
    "        ports:";
    "%s";
    "        env:";
    "          - name: NETWORK_BANDWIDTH";
    "            value: " ++ dquote ++ "%s" ++ dquote;
    "          - name: STORAGE_CAPACITY";
    "            value: " ++ dquote ++ "%s" ++ dquote;
    "          - name: STORAGE_CLASS";
    "            value: " ++ dquote ++ "%s" ++ dquote
  ].

Definition generateKubernetesManifest (appName : string)
    (timedResults : gmap string TimedResult) (ports : list Z) : string :=
  let portString :=
    fold_left
      (fun portString port =>
         portString ++ Fmt.Sprintf portTemplate [Fmt.AInt port])
      ports "" in
  let computeResult := index timedResults "compute" in
  let networkResult := index timedResults "network" in
  let storageResult := index timedResults "storage" in
  Fmt.Sprintf manifestTemplate [
    Fmt.AString appName; Fmt.AString appName;
    Fmt.AString appName; Fmt.AString appName;
    Fmt.AFloat (CPU (Compute computeResult) * f0_8)%float;
    Fmt.AString (Memory (Compute computeResult));
    Fmt.AFloat (CPU (Compute computeResult));
    Fmt.AString (Memory (Compute computeResult));
    Fmt.AString portString;
    Fmt.AString (Bandwidth (Network networkResult));
    Fmt.AString (Capacity (Storage storageResult));
    Fmt.AString (Class (Storage storageResult))
  ].

(** ** The program's model: the part behind the wizard

    The text inputs, the list widget and the terminal size belong to the
    wizard and are left to [wizardView] below. *)

Inductive inputState : Type :=
| inputStateText
| inputStateList
| inputStateProcessing
| inputStateDone.

Record model : Type := {
  state : inputState;            (* the field [inputState] *)
  quitting : bool;
  config : ConfigSpec;
  processing : bool;
  spinner : string;
  result : option (gmap string TimedResult);
  err : option error;
  k8sManifestPath : string;
  output : string
}.

(** The two messages the background processing sends back. *)
Inductive Msg : Type :=
| ProcessCompleteMsg (timedResults : option (gmap string TimedResult))
| ProcessErrorMsg (e : option error).

Inductive Cmd : Type := tea_Quit.

(** The file system as the program meets it: the directories and files
    there are, and what [os.MkdirAll] and [os.WriteFile] answer.  Where
    [os.WriteFile] answers an error, [writeFileWritten] tells how far it
    came: [None] where the file could not be opened, [Some n] where it was
    opened and [n] bytes went into it before the write or the close
    failed. *)
Record FileSystem : Type := {
  dirs : gset string;
  files : gmap string string;
  mkdirAllError : option error;
  writeFileError : option error;
  writeFileWritten : option nat
}.

(** [os.MkdirAll] of a path of one element, as the program calls it: the
    directory is made, or nothing is. *)
Definition os_MkdirAll (fs : FileSystem) (path : string)
  : FileSystem * option error :=
  match mkdirAllError fs with
  | Some e => (fs, Some e)
  | None =>
      ({| dirs := {[ path ]} ∪ dirs fs; files := files fs;
          mkdirAllError := None; writeFileError := writeFileError fs;
          writeFileWritten := writeFileWritten fs |},
       None)
  end.

(** [os.WriteFile] opens the file with [O_WRONLY|O_CREATE|O_TRUNC], writes
    the data and closes the file.  Opening creates the file or empties the
    one there is, so a failure after it leaves the file with the bytes
    written so far, a prefix of the data. *)
Definition os_WriteFile (fs : FileSystem) (name data : string)
  : FileSystem * option error :=
  match writeFileError fs with
  | Some e =>
      (match writeFileWritten fs with
       | None => fs
       | Some n =>
           {| dirs := dirs fs;
              files := <[name := String.substring 0 n data]> (files fs);
              mkdirAllError := mkdirAllError fs;
              writeFileError := writeFileError fs;
              writeFileWritten := writeFileWritten fs |}
       end, Some e)
  | None =>
      ({| dirs := dirs fs; files := <[name := data]> (files fs);
          mkdirAllError := mkdirAllError fs; writeFileError := None;
          writeFileWritten := writeFileWritten fs |},
       None)
  end.

Section Program.

(** Library functions the program calls and this development leaves
    open: [filepath.Join], [glamour.Render] (its text and its error), and
    the wizard's own screen, drawn by lipgloss and the bubbles widgets. *)
Variable filepath_Join : string -> string -> string.
Variable glamour_Render : string -> string -> string * option error.
Variable wizardView : model -> string.

Definition set_k8sManifestPath (m : model) (path : string) : model :=
  {| state := state m; quitting := quitting m; config := config m;
     processing := processing m; spinner := spinner m; result := result m;
     err := err m; k8sManifestPath := path; output := output m |}.

(** Generates and writes the Kubernetes manifest file. *)
Definition generateAndWriteManifest (fs : FileSystem) (m : model)
  : FileSystem * model * option error :=
  match result m with
  | None =>
      (fs, m, Some (Fmt.Errorf "no results available to generate manifest" []))
  | Some timedResults =>
      let k8sManifest :=
        generateKubernetesManifest (AppName (config m)) timedResults
          (Ports (Network (index timedResults "network"))) in
      let outputPath :=
        filepath_Join "k8s"
          (Fmt.Sprintf "%s-deployment.yaml" [Fmt.AString (AppName (config m))]) in
      match os_MkdirAll fs "k8s" with
      | (fs, Some e) =>
          (fs, m,
           Some (Fmt.Errorf "error creating k8s directory: %v"
                   [Fmt.AError (Some e)]))
      | (fs, None) =>
          match os_WriteFile fs outputPath k8sManifest with
          | (fs, Some e) =>
              (fs, m,
               Some (Fmt.Errorf "error writing Kubernetes manifest: %v"
                       [Fmt.AError (Some e)]))
          | (fs, None) => (fs, set_k8sManifestPath m outputPath, None)
          end
      end
  end.

(** Generates the final output string in Markdown format for Glamour. *)
Definition generateOutput (m : model) : string :=
  match err m with
  | Some _ => ""
  | None =>
      match result m with
      | None => "# No Results"
      | Some timedResults =>
          let computeResult := index timedResults "compute" in
          let networkResult := index timedResults "network" in
          let storageResult := index timedResults "storage" in
          ("# Resource Allocation Decision" ++ nl ++ nl)
          ++ ("## Decided Resources" ++ nl ++ nl)
          ++ Fmt.Sprintf
               ("- **Compute:** CPU=%.2f cores, Memory=%s (took %s)" ++ nl)
               [Fmt.AFloat (CPU (Compute computeResult));
                Fmt.AString (Memory (Compute computeResult));
                Fmt.ADuration (Duration computeResult)]
          ++ Fmt.Sprintf
               ("- **Network:** Bandwidth=%s, Ports=%v (took %s)" ++ nl)
               [Fmt.AString (Bandwidth (Network networkResult));
                Fmt.AInts (Ports (Network networkResult));
                Fmt.ADuration (Duration networkResult)]
          ++ Fmt.Sprintf
               ("- **Storage:** Capacity=%s, Class=%s (took %s)" ++ nl)
               [Fmt.AString (Capacity (Storage storageResult));
                Fmt.AString (Class (Storage storageResult));
                Fmt.ADuration (Duration storageResult)]
          ++ (if (k8sManifestPath m =? "")%string then ""
              else Fmt.Sprintf
                     (nl ++ "## File Generated" ++ nl ++ nl
                      ++ "Deployment file generated within `%s`" ++ nl)
                     [Fmt.AString (k8sManifestPath m)])
      end
  end.

(** The two cases of [Update] that take the processing's answer. *)
Definition Update (fs : FileSystem) (m : model) (msg : Msg)
  : FileSystem * model * Cmd :=
  match msg with
  | ProcessCompleteMsg timedResults =>
      let m := {| state := inputStateDone; quitting := quitting m;
                  config := config m; processing := false;
                  spinner := spinner m; result := timedResults;
                  err := err m; k8sManifestPath := k8sManifestPath m;
                  output := output m |} in
      let '(fs, m, e) := generateAndWriteManifest fs m in
      let m :=
        match e with
        | Some e =>
            {| state := state m; quitting := quitting m; config := config m;
               processing := processing m; spinner := spinner m;
               result := result m;
               err := Some (Fmt.Errorf "failed to generate/write manifest: %v"
                              [Fmt.AError (Some e)]);
               k8sManifestPath := k8sManifestPath m; output := output m |}
        | None => m
        end in
      let m := {| state := state m; quitting := quitting m; config := config m;
                  processing := processing m; spinner := spinner m;
                  result := result m; err := err m;
                  k8sManifestPath := k8sManifestPath m;
                  output := generateOutput m |} in
      (fs, m, tea_Quit)
  | ProcessErrorMsg e =>
      let m := {| state := inputStateDone; quitting := quitting m;
                  config := config m; processing := false;
                  spinner := spinner m; result := result m;
                  err := e; k8sManifestPath := k8sManifestPath m;
                  output := output m |} in
      let m := {| state := state m; quitting := quitting m; config := config m;
                  processing := processing m; spinner := spinner m;
                  result := result m; err := err m;
                  k8sManifestPath := k8sManifestPath m;
                  output := generateOutput m |} in
      (fs, m, tea_Quit)
  end.

(** What the screen shows. *)
Definition View (m : model) : string :=
  if quitting m then "Exiting..." ++ nl
  else
    match state m with
    | inputStateProcessing =>
        Fmt.Sprintf ("%s Processing resource allocation for %s..." ++ nl)
          [Fmt.AString (spinner m); Fmt.AString (AppName (config m))]
    | inputStateDone =>
        match err m with
        | Some e =>
            let '(errorOutput, renderErr) :=
              glamour_Render
                (Fmt.Sprintf ("# Error" ++ nl ++ nl ++ "```" ++ nl ++ "%v"
                              ++ nl ++ "```")
                   [Fmt.AError (Some e)])
                "dark" in
            match renderErr with
            | Some re =>
                Fmt.Sprintf ("Error rendering error message: %v" ++ nl
                             ++ "Original Error:" ++ nl ++ "%v" ++ nl)
                  [Fmt.AError (Some re); Fmt.AError (Some e)]
            | None => errorOutput
            end
        | None =>
            let '(out, renderErr) := glamour_Render (output m) "dark" in
            match renderErr with
            | Some re =>
                Fmt.Sprintf ("Error rendering output: %v" ++ nl
                             ++ "Output:" ++ nl ++ "%s" ++ nl)
                  [Fmt.AError (Some re); Fmt.AString (output m)]
            | None => out
            end
        end
    | _ => wizardView m
    end.

End Program.

(** ** The background processing *)

(** [processResourceAllocation]: the command that runs the aggregator and
    wraps what it returns in a message; [None] where the aggregator never
    returns. *)
Definition processResourceAllocation (config : ConfigSpec) (t : Timing)
    (s : Schedule) : option Msg :=
  match collectTimedResourceSpecs config t s with
  | Returned timedResults (Some e) => Some (ProcessErrorMsg (Some e))
  | Returned timedResults None => Some (ProcessCompleteMsg timedResults)
  | Blocked => None
  end.

(** ** The wizard

    The rest of the model struct and of [Update]: the four text inputs,
    the focus index, the list of importance levels, the spinner and the
    terminal size. The widgets of the bubbles library, [strconv.Quote] and
    [filepath.Join] are taken as they come, in [Widgets]; an index outside
    a slice panics, which is [None] here. *)

(** [strconv.Atoi]'s two failures, and its result: the value and the
    error, as Go returns them. *)
Inductive NumError : Type := ErrSyntax | ErrRange.

Definition isDigit (c : ascii) : bool :=
  (48 <=? Z.of_nat (nat_of_ascii c)) && (Z.of_nat (nat_of_ascii c) <=? 57).

Fixpoint digitsValue (n : Z) (s : string) : option Z :=
  match s with
  | "" => Some n
  | String ch rest =>
      if isDigit ch
      then digitsValue (n * 10 + (Z.of_nat (nat_of_ascii ch) - 48)) rest
      else None
  end.

Definition strconv_Atoi (s : string) : Z * option NumError :=
  let '(neg, digits) :=
    match s with
    | String "-" rest => (true, rest)
    | String "+" rest => (false, rest)
    | _ => (false, s)
    end in
  match digits with
  | "" => (0, Some ErrSyntax)
  | _ =>
      match digitsValue 0 digits with
      | None => (0, Some ErrSyntax)
      | Some n =>
          if neg then
            if n <=? 2 ^ 63 then (Int.wrap (- n), None)
            else (Int.min_int, Some ErrRange)
          else
            if n <? 2 ^ 63 then (n, None)
            else (Int.max_int, Some ErrRange)
      end
  end.

(** The message of a [*strconv.NumError] of [Atoi] on [s]. *)
Definition NumError_Error (quote : string -> string) (s : string)
    (e : NumError) : error :=
  "strconv.Atoi: parsing " ++ quote s ++ ": "
  ++ match e with
     | ErrSyntax => "invalid syntax"
     | ErrRange => "value out of range"
     end.

(** The [Validate] function of the three numeric inputs. *)
Definition validateNumber (s : string) : option error :=
  let '(_, e) := strconv_Atoi s in
  if negb (s =? "")%string && bool_decide (e <> None)
  then Some (Fmt.Errorf "must be a number" [])
  else None.

Definition int_sub (a b : Z) : Z := Int.wrap (a - b).

(** [l[i]], which panics outside the slice. *)
Definition atIndex {A : Type} (l : list A) (i : Z) : option A :=
  if (0 <=? i) && (i <? Z.of_nat (length l)) then l !! Z.to_nat i else None.

Definition braille (b : ascii) : string :=
  String "226" (String "160" (String b "")).

Definition spinnerFrames : list string :=
  [ braille "139"; braille "153"; braille "185"; braille "184";
    braille "188"; braille "180"; braille "166"; braille "167";
    braille "135"; braille "143" ].

Definition zeroConfigSpec : ConfigSpec :=
  {| AppName := ""; ExpectedLoad := 0; DataSize := 0; NetworkTraffic := 0;
     ImportanceLevel := "" |}.

Module Wizard.

(** Helper function for max. *)
Definition max (a b : Z) : Z := if a >? b then a else b.

(** The styles the program gives the inputs, and the library's own. *)
Inductive Style : Type :=
| libraryStyle
| focusedPromptStyle
| blurredPromptStyle
| focusedInputStyle
| blurredInputStyle.

(** What the program reads and writes of a [textinput.Model]. *)
Record textinput_Model : Type := {
  Value : string;
  focus : bool;
  Placeholder : string;
  CharLimit : Z;
  Prompt : string;
  PromptStyle : Style;
  PlaceholderStyle : Style;
  TextStyle : Style;
  Validate : option (string -> option error)
}.

Inductive KeyType : Type :=
| KeyCtrlC | KeyEnter | KeyShiftTab | KeyCtrlP | KeyTab | KeyCtrlN
| KeyOther (type : Z).

Inductive tea_Msg : Type :=
| KeyMsg (type : KeyType) (runes : string)
| Answer (msg : Msg)
| TickMsg (t : Z)
| WindowSizeMsg (Width Height : Z)
| OtherMsg (tag : Z).

Inductive tea_Cmd (E : Type) : Type :=
| cmd_nil
| cmd_Quit
| cmd_tick
| cmd_process (config : ConfigSpec)
| cmd_Batch (first second : tea_Cmd E)
| cmd_widget (c : E).

Arguments cmd_nil {E}.
Arguments cmd_Quit {E}.
Arguments cmd_tick {E}.
Arguments cmd_process {E} config.
Arguments cmd_Batch {E} first second.
Arguments cmd_widget {E} c.

(** The library functions the wizard calls. *)
Record Widgets : Type := {
  ListModel : Type;
  ExternalCmd : Type;
  list_New : ListModel;
  list_SelectedItem : ListModel -> option string;
  list_Update : ListModel -> tea_Msg -> ListModel * option ExternalCmd;
  list_SetWidth : ListModel -> Z -> ListModel;
  list_SetHeight : ListModel -> Z -> ListModel;
  textinput_Update :
    textinput_Model -> tea_Msg -> textinput_Model * option ExternalCmd;
  strconv_Quote : string -> string;
  filepath_Join : string -> string -> string
}.

(** The model struct: the fields of [model] above and the wizard's own. *)
Record wizard (W : Widgets) : Type := {
  core : model;
  inputs : list textinput_Model;
  list_ : ListModel W;
  focused : Z;
  spinnerFrame : Z;
  width : Z;
  height : Z
}.

Arguments core {W} w.
Arguments inputs {W} w.
Arguments list_ {W} w.
Arguments focused {W} w.
Arguments spinnerFrame {W} w.
Arguments width {W} w.
Arguments height {W} w.

Section Widgets.

Variable W : Widgets.

Definition ofWidget (c : option (ExternalCmd W)) : tea_Cmd (ExternalCmd W) :=
  match c with
  | Some c => cmd_widget c
  | None => cmd_nil
  end.

Definition set_core (w : wizard W) (c : model) : wizard W :=
  {| core := c; inputs := inputs w; list_ := list_ w; focused := focused w;
     spinnerFrame := spinnerFrame w; width := width w; height := height w |}.

Definition set_inputs (w : wizard W) (l : list textinput_Model) : wizard W :=
  {| core := core w; inputs := l; list_ := list_ w; focused := focused w;
     spinnerFrame := spinnerFrame w; width := width w; height := height w |}.

Definition set_list (w : wizard W) (l : ListModel W) : wizard W :=
  {| core := core w; inputs := inputs w; list_ := l; focused := focused w;
     spinnerFrame := spinnerFrame w; width := width w; height := height w |}.

Definition set_focused (w : wizard W) (i : Z) : wizard W :=
  {| core := core w; inputs := inputs w; list_ := list_ w; focused := i;
     spinnerFrame := spinnerFrame w; width := width w; height := height w |}.

Definition set_spinnerFrame (w : wizard W) (i : Z) : wizard W :=
  {| core := core w; inputs := inputs w; list_ := list_ w;
     focused := focused w; spinnerFrame := i; width := width w;
     height := height w |}.

Definition set_size (w : wizard W) (wd ht : Z) : wizard W :=
  {| core := core w; inputs := inputs w; list_ := list_ w;
     focused := focused w; spinnerFrame := spinnerFrame w; width := wd;
     height := ht |}.

Definition set_state (m : model) (st : inputState) : model :=
  {| state := st; quitting := quitting m; config := config m;
     processing := processing m; spinner := spinner m; result := result m;
     err := err m; k8sManifestPath := k8sManifestPath m; output := output m |}.

Definition set_quitting (m : model) (q : bool) : model :=
  {| state := state m; quitting := q; config := config m;
     processing := processing m; spinner := spinner m; result := result m;
     err := err m; k8sManifestPath := k8sManifestPath m; output := output m |}.

Definition set_config (m : model) (c : ConfigSpec) : model :=
  {| state := state m; quitting := quitting m; config := c;
     processing := processing m; spinner := spinner m; result := result m;
     err := err m; k8sManifestPath := k8sManifestPath m; output := output m |}.

Definition set_processing (m : model) (p : bool) : model :=
  {| state := state m; quitting := quitting m; config := config m;
     processing := p; spinner := spinner m; result := result m;
     err := err m; k8sManifestPath := k8sManifestPath m; output := output m |}.

Definition set_spinner (m : model) (s : string) : model :=
  {| state := state m; quitting := quitting m; config := config m;
     processing := processing m; spinner := s; result := result m;
     err := err m; k8sManifestPath := k8sManifestPath m; output := output m |}.

Definition set_err (m : model) (e : error) : model :=
  {| state := state m; quitting := quitting m; config := config m;
     processing := processing m; spinner := spinner m; result := result m;
     err := Some e; k8sManifestPath := k8sManifestPath m; output := output m |}.

(** [Blur()] and the two blurred styles; [Focus()] and the two focused
    ones. *)
Definition blurred (x : textinput_Model) : textinput_Model :=
  {| Value := Value x; focus := false; Placeholder := Placeholder x;
     CharLimit := CharLimit x; Prompt := Prompt x;
     PromptStyle := blurredPromptStyle;
     PlaceholderStyle := PlaceholderStyle x;
     TextStyle := blurredInputStyle; Validate := Validate x |}.

Definition focusedOn (x : textinput_Model) : textinput_Model :=
  {| Value := Value x; focus := true; Placeholder := Placeholder x;
     CharLimit := CharLimit x; Prompt := Prompt x;
     PromptStyle := focusedPromptStyle;
     PlaceholderStyle := PlaceholderStyle x;
     TextStyle := focusedInputStyle; Validate := Validate x |}.

(** [m.inputs[i]] changed in place. *)
Definition change (f : textinput_Model -> textinput_Model) (w : wizard W)
    (i : Z) : option (wizard W) :=
  x ← atIndex (inputs w) i;
  Some (set_inputs w (<[Z.to_nat i := f x]> (inputs w))).

(** Enter, Tab and Ctrl+N on a text input: on to the next input, or from
    the last one to the list. *)
Definition forward (w : wizard W) : option (wizard W) :=
  if focused w <? int_sub (Z.of_nat (length (inputs w))) 1 then
    w ← change blurred w (focused w);
    let w := set_focused w (Int.add (focused w) 1) in
    change focusedOn w (focused w)
  else
    w ← change blurred w (focused w);
    Some (set_core w (set_state (core w) inputStateList)).

(** Shift+Tab and Ctrl+P. *)
Definition backward (w : wizard W) : option (wizard W) :=
  match state (core w) with
  | inputStateText =>
      w ← change blurred w (focused w);
      let w := set_focused w (max 0 (int_sub (focused w) 1)) in
      change focusedOn w (focused w)
  | inputStateList =>
      let w := set_core w (set_state (core w) inputStateText) in
      let w := set_focused w (int_sub (Z.of_nat (length (inputs w))) 1) in
      change focusedOn w (focused w)
  | _ => Some w
  end.

(** A failed submission: the error in the model, the done state, no
    command. *)
Definition failed (w : wizard W) (c : ConfigSpec) (e : error)
  : wizard W * tea_Cmd (ExternalCmd W) :=
  (set_core w (set_state (set_err (set_config (core w) c) e) inputStateDone),
   cmd_nil).

Definition with_ImportanceLevel (c : ConfigSpec) (v : string) : ConfigSpec :=
  {| AppName := AppName c; ExpectedLoad := ExpectedLoad c;
     DataSize := DataSize c; NetworkTraffic := NetworkTraffic c;
     ImportanceLevel := v |}.

Definition with_AppName (c : ConfigSpec) (v : string) : ConfigSpec :=
  {| AppName := v; ExpectedLoad := ExpectedLoad c;
     DataSize := DataSize c; NetworkTraffic := NetworkTraffic c;
     ImportanceLevel := ImportanceLevel c |}.

Definition with_ExpectedLoad (c : ConfigSpec) (v : Z) : ConfigSpec :=
  {| AppName := AppName c; ExpectedLoad := v;
     DataSize := DataSize c; NetworkTraffic := NetworkTraffic c;
     ImportanceLevel := ImportanceLevel c |}.

Definition with_DataSize (c : ConfigSpec) (v : Z) : ConfigSpec :=
  {| AppName := AppName c; ExpectedLoad := ExpectedLoad c;
     DataSize := v; NetworkTraffic := NetworkTraffic c;
     ImportanceLevel := ImportanceLevel c |}.

Definition with_NetworkTraffic (c : ConfigSpec) (v : Z) : ConfigSpec :=
  {| AppName := AppName c; ExpectedLoad := ExpectedLoad c;
     DataSize := DataSize c; NetworkTraffic := v;
     ImportanceLevel := ImportanceLevel c |}.

(** Enter on the list: collect the inputs and start the processing. *)
Definition submit (w : wizard W)
  : option (wizard W * tea_Cmd (ExternalCmd W)) :=
  let c := config (core w) in
  match list_SelectedItem W (list_ w) with
  | None =>
      Some (failed w c
              (Fmt.Errorf "failed to get selected importance level" []))
  | Some selectedItem =>
      let c := with_ImportanceLevel c selectedItem in
      name ← atIndex (inputs w) 0;
      let c := with_AppName c (Value name) in
      loadInput ← atIndex (inputs w) 1;
      match strconv_Atoi (Value loadInput) with
      | (_, Some e) =>
          Some (failed w c
                  (Fmt.Errorf "invalid expected load: %v"
                     [Fmt.AError
                        (Some (NumError_Error (strconv_Quote W)
                                 (Value loadInput) e))]))
      | (load, None) =>
          let c := with_ExpectedLoad c load in
          dataInput ← atIndex (inputs w) 2;
          match strconv_Atoi (Value dataInput) with
          | (_, Some e) =>
              Some (failed w c
                      (Fmt.Errorf "invalid data size: %v"
                         [Fmt.AError
                            (Some (NumError_Error (strconv_Quote W)
                                     (Value dataInput) e))]))
          | (dataSize, None) =>
              let c := with_DataSize c dataSize in
              trafficInput ← atIndex (inputs w) 3;
              match strconv_Atoi (Value trafficInput) with
              | (_, Some e) =>
                  Some (failed w c
                          (Fmt.Errorf "invalid network traffic: %v"
                             [Fmt.AError
                                (Some (NumError_Error (strconv_Quote W)
                                         (Value trafficInput) e))]))
              | (networkTraffic, None) =>
                  let c := with_NetworkTraffic c networkTraffic in
                  Some (set_core w
                          (set_state
                             (set_processing (set_config (core w) c) true)
                             inputStateProcessing),
                        cmd_Batch (cmd_process c) cmd_tick)
              end
          end
      end
  end.

(** The end of [Update]: the message goes to the focused text input or to
    the list. *)
Definition toWidget (w : wizard W) (msg : tea_Msg)
  : option (wizard W * tea_Cmd (ExternalCmd W)) :=
  match state (core w) with
  | inputStateText =>
      x ← atIndex (inputs w) (focused w);
      let '(x, cmd) := textinput_Update W x msg in
      Some (set_inputs w (<[Z.to_nat (focused w) := x]> (inputs w)),
            ofWidget cmd)
  | inputStateList =>
      let '(l, cmd) := list_Update W (list_ w) msg in
      Some (set_list w l, ofWidget cmd)
  | _ => Some (w, cmd_nil)
  end.

(** Bubble Tea Update function. *)
Definition Update (fs : FileSystem) (w : wizard W) (msg : tea_Msg)
  : option (FileSystem * wizard W * tea_Cmd (ExternalCmd W)) :=
  let finish (w : option (wizard W)) :=
    w ← w; '(w, cmd) ← toWidget w msg; Some (fs, w, cmd) in
  match msg with
  | KeyMsg KeyCtrlC _ =>
      Some (fs, set_core w (set_quitting (core w) true), cmd_Quit)
  | KeyMsg KeyEnter _ =>
      match state (core w) with
      | inputStateText => finish (forward w)
      | inputStateList => '(w, cmd) ← submit w; Some (fs, w, cmd)
      | _ => finish (Some w)
      end
  | KeyMsg KeyShiftTab _ | KeyMsg KeyCtrlP _ => finish (backward w)
  | KeyMsg KeyTab _ | KeyMsg KeyCtrlN _ =>
      match state (core w) with
      | inputStateText => finish (forward w)
      | _ => finish (Some w)
      end
  | KeyMsg (KeyOther _) _ => finish (Some w)
  | Answer answer =>
      let '(fs, m, _) := Update (filepath_Join W) fs (core w) answer in
      Some (fs, set_core w m, cmd_Quit)
  | TickMsg _ =>
      if processing (core w) then
        let w :=
          set_spinnerFrame w
            (Z.rem (Int.add (spinnerFrame w) 1)
               (Z.of_nat (length spinnerFrames))) in
        frame ← atIndex spinnerFrames (spinnerFrame w);
        Some (fs, set_core w (set_spinner (core w) frame), cmd_tick)
      else finish (Some w)
  | WindowSizeMsg Width Height =>
      let w := set_size w Width Height in
      let w :=
        match state (core w) with
        | inputStateList =>
            set_list w
              (list_SetHeight W (list_SetWidth W (list_ w) Width)
                 (int_sub (height w) 10))
        | _ => w
        end in
      finish (Some w)
  | OtherMsg _ => finish (Some w)
  end.

(** One numeric input as [initialModel] sets it up. *)
Definition numericInput (placeholder : string) : textinput_Model :=
  {| Value := ""; focus := false; Placeholder := placeholder; CharLimit := 6;
     Prompt := "> "; PromptStyle := blurredPromptStyle;
     PlaceholderStyle := libraryStyle; TextStyle := blurredInputStyle;
     Validate := Some validateNumber |}.

(** Initial state of the application. *)
Definition initialModel : wizard W :=
  {| core := {| state := inputStateText; quitting := false;
                config := zeroConfigSpec; processing := false;
                spinner := default "" (spinnerFrames !! 0%nat);
                result := None; err := None; k8sManifestPath := "";
                output := "" |};
     inputs :=
       [ {| Value := ""; focus := true; Placeholder := "e.g. my-web-app";
            CharLimit := 30; Prompt := "> ";
            PromptStyle := focusedPromptStyle;
            PlaceholderStyle := blurredPromptStyle;
            TextStyle := focusedInputStyle; Validate := None |};
         numericInput "e.g. 500";
         numericInput "e.g. 100";
         numericInput "e.g. 75" ];
     list_ := list_New W;
     focused := 0;
     spinnerFrame := 0;
     width := 0;
     height := 0 |}.

(** The messages of a session, one after the other. *)
Fixpoint run (fs : FileSystem) (w : wizard W) (msgs : list tea_Msg)
  : option (FileSystem * wizard W) :=
  match msgs with
  | [] => Some (fs, w)
  | msg :: msgs =>
      '(fs, w, _) ← Update fs w msg; run fs w msgs
  end.

End Widgets.

Arguments set_core {W} w c.
Arguments set_inputs {W} w l.
Arguments set_list {W} w l.
Arguments set_focused {W} w i.
Arguments set_spinnerFrame {W} w i.
Arguments set_size {W} w wd ht.

End Wizard.

(** * What the properties speak of *)

(** ** Rule engine and aggregator *)

(** The input of the spec's compute example; the name and the network
    traffic play no part in the compute rule. *)
Definition computeExample (name : string) (traffic : Z) : ConfigSpec :=
  {| AppName := name; ExpectedLoad := 350; DataSize := 60;
     NetworkTraffic := traffic; ImportanceLevel := "high" |}.

(** The three names the rules send under. *)
Definition decisionNames : list string := ["compute"; "network"; "storage"].

(** A result without its measured duration: the decision itself. *)
Definition decision (r : TimedResult)
  : string * ComputeSpec * NetworkSpec * StorageSpec * option error :=
  (Name r, Compute r, Network r, Storage r, Error r).

(** The map the aggregator returns for three results without failure that
    carry the three names. *)
Definition keyed (c n st : TimedResult) : gmap string TimedResult :=
  <["compute" := c]> (<["network" := n]> (<["storage" := st]> ∅)).

(** A network result that carries a failure. *)
Definition failedNetwork : TimedResult :=
  {| Name := "network"; Compute := zeroComputeSpec; Network := zeroNetworkSpec;
     Storage := zeroStorageSpec; Error := Some "no route"; Duration := 150000000 |}.

(** ** The descriptor *)

(** The deployment descriptor as the spec lays it out: the application
    name, the four resource values, one port per entry, and the three
    environment values. *)
Record Descriptor : Type := {
  appname : string;
  requestsCPU : string;
  requestsMemory : string;
  limitsCPU : string;
  limitsMemory : string;
  containerPorts : list Z;
  networkBandwidth : string;
  storageCapacity : string;
  storageClass : string
}.

(** One entry of the ports list: the container port and its protocol. *)
Definition portEntry (port : Z) : string :=
  String.concat "" [
    nl;
    "          - containerPort: "; Fmt.formatInt port; nl;
    "            protocol: TCP"; nl;
    "        "
  ].

Definition portEntries (ports : list Z) : list string := portEntry <$> ports.

(** The descriptor's text, piece by piece. *)
Definition renderDescriptor (d : Descriptor) : string :=
  String.concat "" [
    nl;
    "apiVersion: apps/v1"; nl;
    "kind: Deployment"; nl;
    "metadata:"; nl;
    "  name: "; appname d; "-deployment"; nl;
    "spec:"; nl;
    "  replicas: 1"; nl;
    "  selector:"; nl;
    "    matchLabels:"; nl;
    "      app: "; appname d; nl;
    "  template:"; nl;
    "    metadata:"; nl;
    "      labels:"; nl;
    "        app: "; appname d; nl;
    "    spec:"; nl;
    "      containers:"; nl;
    "      - name: "; appname d; "-container"; nl;
    "        image: your-app-image:latest # Replace with your actual image"; nl;
    "        resources:"; nl;
    "          requests:"; nl;
    "            cpu: "; dquote; requestsCPU d; dquote; nl;
    "            memory: "; dquote; requestsMemory d; dquote; nl;
    "          limits:"; nl;
    "            cpu: "; dquote; limitsCPU d; dquote; nl;
    "            memory: "; dquote; limitsMemory d; dquote; nl;
    "        ports:"; nl;
    String.concat "" (portEntries (containerPorts d)); nl;
    "        env:"; nl;
    "          - name: NETWORK_BANDWIDTH"; nl;
    "            value: "; dquote; networkBandwidth d; dquote; nl;
    "          - name: STORAGE_CAPACITY"; nl;
    "            value: "; dquote; storageCapacity d; dquote; nl;
    "          - name: STORAGE_CLASS"; nl;
    "            value: "; dquote; storageClass d; dquote; nl
  ].

(** ** The screen *)

(** Whether [needle] occurs in [text]. *)
Fixpoint contains (needle text : string) : bool :=
  String.prefix needle text
  || match text with
     | "" => false
     | String _ rest => contains needle rest
     end.

(** The Markdown document [View] hands to the renderer for an error. *)
Definition errorDocument (message : string) : string :=
  "# Error" ++ nl ++ nl ++ "```" ++ nl ++ message ++ nl ++ "```".

(** A run to evaluate: the results of the compute example under one
    schedule, a model that is waiting for them, a file system on which no
    directory can be made and one that takes every write, [filepath.Join]
    on two plain elements, and a renderer that hands the Markdown back. *)
Definition exampleResults : gmap string TimedResult :=
  keyed (sent (decideCompute (computeExample "web" 30) 200123456))
        (sent (decideNetwork (computeExample "web" 30) 150000000))
        (sent (decideStorage (computeExample "web" 30) 100000789)).

Definition processingModel : model :=
  {| state := inputStateProcessing; quitting := false;
     config := computeExample "web" 30; processing := true;
     spinner := "|"; result := None; err := None;
     k8sManifestPath := ""; output := "" |}.

Definition readOnlyFS : FileSystem :=
  {| dirs := ∅; files := ∅;
     mkdirAllError := Some "mkdir k8s: permission denied";
     writeFileError := None; writeFileWritten := None |}.

Definition writableFS : FileSystem :=
  {| dirs := ∅; files := ∅; mkdirAllError := None; writeFileError := None;
     writeFileWritten := None |}.

Definition joinSlash (dir file : string) : string := dir ++ "/" ++ file.

Definition renderSource (markdown style : string) : string * option error :=
  (markdown, None).

Definition noWizard (m : model) : string := "".

(** ** The manifest file and the summary *)

(** The name [generateAndWriteManifest] writes under, for a given
    [filepath.Join]. *)
Definition manifestPath (join : string -> string -> string) (appName : string)
  : string :=
  join "k8s" (appName ++ "-deployment.yaml").

(** The manifest the program writes for a map of results. *)
Definition manifestOf (appName : string) (timedResults : gmap string TimedResult)
  : string :=
  generateKubernetesManifest appName timedResults
    (Ports (Network (index timedResults "network"))).

(** The last of the arrivals that carry the name [key]. *)
Definition lastNamed (key : string) (arrivals : list TimedResult)
  : option TimedResult :=
  last (filter (fun r => Name r = key) arrivals).

(** The results without failure. *)
Definition succeeded (r : TimedResult) : Prop := Error r = None.

(** The three lines of the summary, its closing section, and the whole. *)
Definition computeLine (r : TimedResult) : string :=
  String.concat "" [
    "- **Compute:** CPU="; Fmt.formatFloat2 (CPU (Compute r));
    " cores, Memory="; Memory (Compute r);
    " (took "; Fmt.formatDuration (Duration r); ")"; nl
  ].

Definition networkLine (r : TimedResult) : string :=
  String.concat "" [
    "- **Network:** Bandwidth="; Bandwidth (Network r);
    ", Ports="; Fmt.formatInts (Ports (Network r));
    " (took "; Fmt.formatDuration (Duration r); ")"; nl
  ].

Definition storageLine (r : TimedResult) : string :=
  String.concat "" [
    "- **Storage:** Capacity="; Capacity (Storage r);
    ", Class="; Class (Storage r);
    " (took "; Fmt.formatDuration (Duration r); ")"; nl
  ].

Definition fileSection (path : string) : string :=
  String.concat "" [
    nl; "## File Generated"; nl; nl;
    "Deployment file generated within `"; path; "`"; nl
  ].

Definition summaryText (timedResults : gmap string TimedResult) (path : string)
  : string :=
  String.concat "" [
    "# Resource Allocation Decision"; nl; nl;
    "## Decided Resources"; nl; nl
  ]
  ++ computeLine (index timedResults "compute")
  ++ networkLine (index timedResults "network")
  ++ storageLine (index timedResults "storage")
  ++ (if (path =? "")%string then "" else fileSection path).

(** A model that holds the example's results, as [Update] leaves it before
    the manifest is written. *)
Definition answeredModel : model :=
  {| state := inputStateDone; quitting := false;
     config := computeExample "web" 30; processing := false;
     spinner := "|"; result := Some exampleResults; err := None;
     k8sManifestPath := ""; output := "" |}.

(** A file system with an earlier manifest of the application, on which
    the next write fails for want of space after twelve bytes. *)
Definition fullDiskFS : FileSystem :=
  {| dirs := {[ "k8s" ]};
     files := {[ "k8s/web-deployment.yaml" := nl ++ "apiVersion: apps/v1" ]};
     mkdirAllError := None;
     writeFileError :=
       Some "write k8s/web-deployment.yaml: no space left on device";
     writeFileWritten := Some 12%nat |}.

(** Arrivals with two results under one name, and a failing compute
    result. *)
Definition twiceCompute : list TimedResult :=
  [ sent (decideCompute (computeExample "web" 30) 1);
    sent (decideStorage (computeExample "web" 30) 2);
    sent (decideCompute (computeExample "web" 30) 3);
    failedNetwork ].

Definition failedCompute : TimedResult :=
  {| Name := "compute"; Compute := zeroComputeSpec; Network := zeroNetworkSpec;
     Storage := zeroStorageSpec; Error := Some "no cores"; Duration := 1 |}.

(** The same configuration at another importance level. *)
Definition withImportance (config : ConfigSpec) (level : string) : ConfigSpec :=
  {| AppName := AppName config; ExpectedLoad := ExpectedLoad config;
     DataSize := DataSize config; NetworkTraffic := NetworkTraffic config;
     ImportanceLevel := level |}.

(** ** The wizard *)

(** What [Update] keeps of the wizard: four inputs, a focus index among
    them, a spinner index among the ten frames. *)
Definition wizard_ok {W : Wizard.Widgets} (w : Wizard.wizard W) : Prop :=
  length (Wizard.inputs w) = 4%nat
  /\ 0 <= Wizard.focused w < 4
  /\ 0 <= Wizard.spinnerFrame w < 10.

(** The three numeric inputs by their place among the inputs, as the
    messages of a failed submission call them. *)
Definition fieldLabel (i : nat) : string :=
  match i with
  | 1%nat => "expected load"
  | 2%nat => "data size"
  | _ => "network traffic"
  end.

Definition isTick (msg : Wizard.tea_Msg) : Prop :=
  match msg with
  | Wizard.TickMsg _ => True
  | _ => False
  end.

(** The keys other than Ctrl+C, and the messages of no case of [Update]. *)
Definition passive (msg : Wizard.tea_Msg) : Prop :=
  match msg with
  | Wizard.KeyMsg Wizard.KeyCtrlC _ => False
  | Wizard.KeyMsg _ _ => True
  | Wizard.OtherMsg _ => True
  | _ => False
  end.

(** Widgets to evaluate with: a list that is its cursor and never moves,
    text inputs that take the runes of a key, quoting by two quote marks,
    and [joinSlash]. *)
Definition typed (x : Wizard.textinput_Model) (runes : string)
  : Wizard.textinput_Model :=
  {| Wizard.Value := Wizard.Value x ++ runes;
     Wizard.focus := Wizard.focus x;
     Wizard.Placeholder := Wizard.Placeholder x;
     Wizard.CharLimit := Wizard.CharLimit x;
     Wizard.Prompt := Wizard.Prompt x;
     Wizard.PromptStyle := Wizard.PromptStyle x;
     Wizard.PlaceholderStyle := Wizard.PlaceholderStyle x;
     Wizard.TextStyle := Wizard.TextStyle x;
     Wizard.Validate := Wizard.Validate x |}.

Definition plainWidgets : Wizard.Widgets :=
  {| Wizard.ListModel := nat;
     Wizard.ExternalCmd := unit;
     Wizard.list_New := 0%nat;
     Wizard.list_SelectedItem := fun i => ["high"; "medium"; "low"] !! i;
     Wizard.list_Update := fun l _ => (l, None);
     Wizard.list_SetWidth := fun l _ => l;
     Wizard.list_SetHeight := fun l _ => l;
     Wizard.textinput_Update :=
       fun x msg =>
         match msg with
         | Wizard.KeyMsg (Wizard.KeyOther _) runes => (typed x runes, None)
         | _ => (x, None)
         end;
     Wizard.strconv_Quote := fun s => dquote ++ s ++ dquote;
     Wizard.filepath_Join := joinSlash |}.

(** The keys of a session that fills in the compute example and reaches
    the list, and the wizard they lead to. *)
Definition exampleKeys : list Wizard.tea_Msg :=
  [ Wizard.KeyMsg (Wizard.KeyOther 0) "web"; Wizard.KeyMsg Wizard.KeyEnter "";
    Wizard.KeyMsg (Wizard.KeyOther 0) "350"; Wizard.KeyMsg Wizard.KeyTab "";
    Wizard.KeyMsg (Wizard.KeyOther 0) "60"; Wizard.KeyMsg Wizard.KeyEnter "";
    Wizard.KeyMsg (Wizard.KeyOther 0) "30"; Wizard.KeyMsg Wizard.KeyEnter "" ].

Definition atList : Wizard.wizard plainWidgets :=
  match Wizard.run plainWidgets writableFS (Wizard.initialModel plainWidgets)
          exampleKeys with
  | Some (_, w) => w
  | None => Wizard.initialModel plainWidgets
  end.

(** The same wizard written out, its inputs one by one; the wizard at the
    list with nothing typed; and the wizard that is processing the
    example. *)
Definition nameInput (text : string) : Wizard.textinput_Model :=
  {| Wizard.Value := text; Wizard.focus := false;
     Wizard.Placeholder := "e.g. my-web-app"; Wizard.CharLimit := 30;
     Wizard.Prompt := "> "; Wizard.PromptStyle := Wizard.blurredPromptStyle;
     Wizard.PlaceholderStyle := Wizard.blurredPromptStyle;
     Wizard.TextStyle := Wizard.blurredInputStyle; Wizard.Validate := None |}.

Definition filled (i : nat) : Wizard.textinput_Model :=
  match i with
  | 0%nat => nameInput "web"
  | 1%nat => typed (Wizard.numericInput "e.g. 500") "350"
  | 2%nat => typed (Wizard.numericInput "e.g. 100") "60"
  | _ => typed (Wizard.numericInput "e.g. 75") "30"
  end.

Definition blank (i : nat) : Wizard.textinput_Model :=
  match i with
  | 0%nat => nameInput ""
  | 1%nat => Wizard.numericInput "e.g. 500"
  | 2%nat => Wizard.numericInput "e.g. 100"
  | _ => Wizard.numericInput "e.g. 75"
  end.

Definition listModel (c : ConfigSpec) (st : inputState) (busy : bool)
  : model :=
  {| state := st; quitting := false; config := c; processing := busy;
     spinner := braille "139"; result := None; err := None;
     k8sManifestPath := ""; output := "" |}.

Definition ready : Wizard.wizard plainWidgets :=
  {| Wizard.core := listModel zeroConfigSpec inputStateList false;
     Wizard.inputs := [filled 0; filled 1; filled 2; filled 3];
     Wizard.list_ := (0%nat : Wizard.ListModel plainWidgets);
     Wizard.focused := 3; Wizard.spinnerFrame := 0;
     Wizard.width := 0; Wizard.height := 0 |}.

Definition unready : Wizard.wizard plainWidgets :=
  {| Wizard.core := listModel zeroConfigSpec inputStateList false;
     Wizard.inputs := [blank 0; blank 1; blank 2; blank 3];
     Wizard.list_ := (0%nat : Wizard.ListModel plainWidgets);
     Wizard.focused := 3; Wizard.spinnerFrame := 0;
     Wizard.width := 0; Wizard.height := 0 |}.

Definition busy : Wizard.wizard plainWidgets :=
  {| Wizard.core :=
       listModel (computeExample "web" 30) inputStateProcessing true;
     Wizard.inputs := [filled 0; filled 1; filled 2; filled 3];
     Wizard.list_ := (0%nat : Wizard.ListModel plainWidgets);
     Wizard.focused := 3; Wizard.spinnerFrame := 0;
     Wizard.width := 0; Wizard.height := 0 |}.

Definition twelveTicks : list Wizard.tea_Msg :=
  Wizard.TickMsg <$> [1; 2; 3; 4; 5; 6; 7; 8; 9; 10; 11; 12].

(** How an input looks: lit, with the focus and the two focused styles
    ([Some true]); dim, without the focus and with the two blurred styles
    ([Some false]); or neither. *)
Definition look (x : Wizard.textinput_Model) : option bool :=
  match Wizard.focus x, Wizard.PromptStyle x, Wizard.TextStyle x with
  | true, Wizard.focusedPromptStyle, Wizard.focusedInputStyle => Some true
  | false, Wizard.blurredPromptStyle, Wizard.blurredInputStyle => Some false
  | _, _, _ => None
  end.

(** Four inputs of which the one at [i] is lit and the others are dim;
    outside 0..3, four dim inputs. *)
Definition spot (i : Z) : list (option bool) :=
  [Some (i =? 0); Some (i =? 1); Some (i =? 2); Some (i =? 3)].

(** The wizard's highlighting: no input is lit but the one at the focus
    index; in the text state that one is lit; on the list and while
    processing none is. *)
Definition highlighted {W : Wizard.Widgets} (w : Wizard.wizard W) : Prop :=
  let looks := look <$> Wizard.inputs w in
  (looks = spot (Wizard.focused w) \/ looks = spot (-1))
  /\ (state (Wizard.core w) = inputStateText -> looks = spot (Wizard.focused w))
  /\ (state (Wizard.core w) = inputStateList
      \/ state (Wizard.core w) = inputStateProcessing ->
      looks = spot (-1)).

(** Widgets whose text input leaves the focus flag and the styles alone. *)
Definition keeps_look (W : Wizard.Widgets) : Prop :=
  forall (x : Wizard.textinput_Model) (msg : Wizard.tea_Msg),
    look (Wizard.textinput_Update W x msg).1 = look x.

(** * Properties *)

(** ** Integers and formatting *)

(** Values checked against what Go prints. *)
Example formatFloat2_third : Fmt.formatFloat2 (200 / 150)%float = "1.33".
Proof. vm_compute. reflexivity. Qed.

Example formatFloat2_tie : Fmt.formatFloat2 0.125%float = "0.12".
Proof. vm_compute. reflexivity. Qed.

Example formatFloat2_negative : Fmt.formatFloat2 (Int.to_float64 (-7)) = "-7.00".
Proof. vm_compute. reflexivity. Qed.

Example f0_8_nearest : f0_8 = (4 / 5)%float.
Proof. vm_compute. reflexivity. Qed.

Example formatDuration_ms : Fmt.formatDuration 200123456 = "200.123456ms".
Proof. vm_compute. reflexivity. Qed.

Example formatDuration_hms : Fmt.formatDuration 3723000000000 = "1h2m3s".
Proof. vm_compute. reflexivity. Qed.

Example Sprintf_verbs :
  Fmt.Sprintf "%s: %d of %v, %.2f (%v)"
    [Fmt.AString "web"; Fmt.AInt (-42); Fmt.AInts [8080; 443];
     Fmt.AFloat 2.5%float; Fmt.AError (Some "boom")]
  = "web: -42 of [8080 443], 2.50 (boom)".
Proof. vm_compute. reflexivity. Qed.

Lemma wrap_in_range (z : Z) : Int.in_range z -> Int.wrap z = z.
Proof.
  unfold Int.in_range, Int.wrap, Int.min_int, Int.max_int. intros Hz.
  rewrite Z.mod_small; lia.
Qed.

(** Below the top of the range, the sum of a small constant and a quotient
    of a positive [int] does not wrap. *)
Lemma add_div_exact (k d x : Z) :
  0 <= k <= 256 -> 4 <= d -> Int.in_range x -> 0 <= x ->
  Int.add k (Int.div x d) = k + x ÷ d.
Proof.
  intros Hk Hd Hx Hpos. unfold Int.add, Int.div.
  assert (Hq : 0 <= x ÷ d <= x / 4).
  { rewrite Z.quot_div_nonneg by lia. split.
    - apply Z.div_pos; lia.
    - apply Z.div_le_compat_l; lia. }
  assert (Hx4 : x / 4 <= 2 ^ 61).
  { unfold Int.in_range, Int.max_int in Hx.
    apply Z.div_le_upper_bound; lia. }
  rewrite (wrap_in_range (x ÷ d)).
  - apply wrap_in_range. unfold Int.in_range, Int.min_int, Int.max_int. lia.
  - unfold Int.in_range, Int.min_int, Int.max_int. lia.
Qed.

(** ** Rule engine *)

Section Rules.

Variable config : ConfigSpec.
Variable elapsed : time_Duration.

Lemma importance_high :
  ImportanceLevel config = "high" ->
  (ImportanceLevel config =? "high")%string = true.
Proof. intros ->. reflexivity. Qed.

Lemma importance_not_high :
  ImportanceLevel config <> "high" ->
  (ImportanceLevel config =? "high")%string = false.
Proof. apply String.eqb_neq. Qed.

(** Where the data size is over 50 the memory is the formatted sum,
    whatever the load and importance rules had chosen. *)
Lemma decideCompute_memory_override :
  (DataSize config >? 50) = true ->
  Memory (Compute (sent (decideCompute config elapsed)))
  = Fmt.formatInt (Int.add 256 (Int.div (DataSize config) 4)) ++ "Mi".
Proof.
  intros Hd. unfold decideCompute.
  destruct (ExpectedLoad config >? 300);
    destruct (ImportanceLevel config =? "high")%string;
    cbn [sent Compute Memory]; rewrite Hd; reflexivity.
Qed.

Lemma decideStorage_capacity_high :
  ImportanceLevel config = "high" ->
  Capacity (Storage (sent (decideStorage config elapsed))) = "20Gi".
Proof.
  intros Hi. unfold decideStorage. rewrite (importance_high Hi).
  destruct (DataSize config >? 250); reflexivity.
Qed.

Lemma decideStorage_class :
  Class (Storage (sent (decideStorage config elapsed)))
  = if DataSize config >? 250 then "premium" else "standard".
Proof.
  unfold decideStorage.
  destruct (DataSize config >? 250);
    destruct (ImportanceLevel config =? "high")%string; reflexivity.
Qed.

End Rules.

(** The spec's first compute example: load 200, importance medium, no
    data. *)
Example decideCompute_200_medium_0 :
  let spec :=
    Compute (sent (decideCompute
      {| AppName := "web"; ExpectedLoad := 200; DataSize := 0;
         NetworkTraffic := 0; ImportanceLevel := "medium" |} 200000000)) in
  Fmt.formatFloat2 (CPU spec) = "1.33" /\ Memory spec = "256Mi".
Proof. split; vm_compute; reflexivity. Qed.

(** C1, as the code has it: for expectedLoad=350, importance high and
    dataSize=60 the compute rule returns the CPU 350/150 + 0.75 + 0.25,
    which prints as 3.33, and the memory ["271Mi"], that is 256 + 60/4, the
    dataSize override winning over the importance rule's ["1Gi"]. *)
Theorem decideCompute_example (name : string) (traffic : Z)
    (elapsed : time_Duration) :
  let spec := Compute (sent (decideCompute (computeExample name traffic) elapsed)) in
  CPU spec = (350 / 150 + 0.75 + 0.25)%float
  /\ Fmt.formatFloat2 (CPU spec) = "3.33"
  /\ Memory spec = "271Mi"
  /\ Memory spec <> "1Gi".
Proof.
  cbn zeta. repeat split; try (vm_compute; reflexivity).
  vm_compute. discriminate.
Qed.

(** C1 as the spec words it fails: the memory is not ["316Mi"]. *)
Lemma decideCompute_example_not_316Mi :
  Memory (Compute (sent (decideCompute (computeExample "web" 30) 200000000)))
  <> "316Mi".
Proof. vm_compute. discriminate. Qed.

(** C2: for every input with dataSize > 50 the compute rule's memory is
    256 + dataSize/4, the division truncating, printed in decimal and
    followed by "Mi", whatever the expected load and the importance level
    are. *)
Theorem decideCompute_memory_dataSize (config : ConfigSpec)
    (elapsed : time_Duration) :
  Int.in_range (DataSize config) ->
  DataSize config > 50 ->
  Memory (Compute (sent (decideCompute config elapsed)))
  = Fmt.formatInt (256 + DataSize config ÷ 4) ++ "Mi".
Proof.
  intros Hr Hd.
  rewrite decideCompute_memory_override by (apply Z.gtb_lt; lia).
  rewrite add_div_exact by (assumption || lia). reflexivity.
Qed.

Lemma decideCompute_memory_dataSize_witness :
  Memory (Compute (sent (decideCompute
    {| AppName := "api"; ExpectedLoad := 900; DataSize := 1023;
       NetworkTraffic := 5; ImportanceLevel := "high" |} 1)))
  = "511Mi".
Proof.
  apply (decideCompute_memory_dataSize
    {| AppName := "api"; ExpectedLoad := 900; DataSize := 1023;
       NetworkTraffic := 5; ImportanceLevel := "high" |} 1).
  - unfold Int.in_range, Int.min_int, Int.max_int; simpl; lia.
  - simpl; lia.
Defined.

(** C4: for dataSize=300 and importance high the storage rule returns the
    capacity "20Gi", not the "8Gi" the dataSize rule had set, and the class
    stays "premium". *)
Theorem decideStorage_300_high (name : string) (load traffic : Z)
    (elapsed : time_Duration) :
  let spec :=
    Storage (sent (decideStorage
      {| AppName := name; ExpectedLoad := load; DataSize := 300;
         NetworkTraffic := traffic; ImportanceLevel := "high" |} elapsed)) in
  Capacity spec = "20Gi" /\ Capacity spec <> "8Gi" /\ Class spec = "premium".
Proof. cbn zeta. repeat split. vm_compute. discriminate. Qed.

(** The capacity the dataSize rule alone sets for dataSize=300. *)
Lemma decideStorage_300_medium (name : string) (load traffic : Z)
    (elapsed : time_Duration) :
  Storage (sent (decideStorage
    {| AppName := name; ExpectedLoad := load; DataSize := 300;
       NetworkTraffic := traffic; ImportanceLevel := "medium" |} elapsed))
  = {| Capacity := "8Gi"; Class := "premium" |}.
Proof. reflexivity. Qed.

(** C7: the network rule's bandwidth is "50Mbps" up to a traffic of 25 and
    "200Mbps" above; its ports are [8080], and [8080, 443] for importance
    high; so traffic 30 with importance high gives "200Mbps" and
    [8080, 443]. *)
Theorem decideNetwork_rule (config : ConfigSpec) (elapsed : time_Duration) :
  let spec := Network (sent (decideNetwork config elapsed)) in
  (NetworkTraffic config <= 25 -> Bandwidth spec = "50Mbps")
  /\ (NetworkTraffic config > 25 -> Bandwidth spec = "200Mbps")
  /\ (ImportanceLevel config <> "high" -> Ports spec = [8080])
  /\ (ImportanceLevel config = "high" -> Ports spec = [8080; 443])
  /\ (NetworkTraffic config = 30 -> ImportanceLevel config = "high" ->
      spec = {| Bandwidth := "200Mbps"; Ports := [8080; 443] |}).
Proof.
  cbn zeta. unfold decideNetwork. cbn [sent Network Bandwidth Ports].
  repeat split.
  - intros Ht. destruct (Z.gtb_spec (NetworkTraffic config) 25); [lia | done].
  - intros Ht. destruct (Z.gtb_spec (NetworkTraffic config) 25); [done | lia].
  - intros Hi. rewrite (importance_not_high _ Hi). reflexivity.
  - intros Hi. rewrite (importance_high _ Hi). reflexivity.
  - intros Ht Hi. rewrite Ht, (importance_high _ Hi). reflexivity.
Qed.

Lemma decideNetwork_rule_witness :
  Network (sent (decideNetwork
    {| AppName := "web"; ExpectedLoad := 350; DataSize := 60;
       NetworkTraffic := 30; ImportanceLevel := "high" |} 150000000))
  = {| Bandwidth := "200Mbps"; Ports := [8080; 443] |}.
Proof.
  apply (decideNetwork_rule
    {| AppName := "web"; ExpectedLoad := 350; DataSize := 60;
       NetworkTraffic := 30; ImportanceLevel := "high" |} 150000000);
    reflexivity.
Defined.

(** C10: with importance high and dataSize <= 250 the storage rule returns
    the capacity "20Gi" in the class "standard".  The same configuration
    at any other importance level gets the default, the capacity "5Gi" in
    the class "standard": the importance override raises the capacity to
    four times the default and leaves the class at its default. *)
Theorem decideStorage_high_small (config : ConfigSpec)
    (elapsed : time_Duration) :
  ImportanceLevel config = "high" ->
  DataSize config <= 250 ->
  let high := Storage (sent (decideStorage config elapsed)) in
  high = {| Capacity := "20Gi"; Class := "standard" |}
  /\ forall level : string,
       level <> "high" ->
       let default :=
         Storage (sent (decideStorage (withImportance config level) elapsed)) in
       default = {| Capacity := "5Gi"; Class := "standard" |}
       /\ Class high = Class default
       /\ exists n,
            Capacity default = Fmt.formatInt n ++ "Gi"
            /\ Capacity high = Fmt.formatInt (4 * n) ++ "Gi".
Proof.
  intros Hi Hd high.
  assert (Hhigh : high = {| Capacity := "20Gi"; Class := "standard" |}).
  { pose proof (decideStorage_capacity_high config elapsed Hi) as Hc.
    pose proof (decideStorage_class config elapsed) as Hk.
    destruct (Z.gtb_spec (DataSize config) 250); [lia |].
    subst high. destruct (Storage (sent (decideStorage config elapsed))).
    cbn in Hc, Hk. congruence. }
  split; [exact Hhigh |]. intros level Hl default.
  assert (Hdefault : default = {| Capacity := "5Gi"; Class := "standard" |}).
  { subst default. unfold decideStorage.
    cbn [withImportance DataSize ImportanceLevel].
    destruct (Z.gtb_spec (DataSize config) 250); [lia |].
    apply String.eqb_neq in Hl. rewrite Hl. reflexivity. }
  rewrite Hhigh, Hdefault. split; [reflexivity |]. split; [reflexivity |].
  exists 5. split; reflexivity.
Qed.

Lemma decideStorage_high_small_witness :
  Storage (sent (decideStorage
    {| AppName := "db"; ExpectedLoad := 10; DataSize := 250;
       NetworkTraffic := 1; ImportanceLevel := "high" |} 100000000))
  = {| Capacity := "20Gi"; Class := "standard" |}
  /\ Storage (sent (decideStorage
       {| AppName := "db"; ExpectedLoad := 10; DataSize := 250;
          NetworkTraffic := 1; ImportanceLevel := "medium" |} 100000000))
     = {| Capacity := "5Gi"; Class := "standard" |}.
Proof.
  destruct (decideStorage_high_small
    {| AppName := "db"; ExpectedLoad := 10; DataSize := 250;
       NetworkTraffic := 1; ImportanceLevel := "high" |} 100000000)
    as [Hhigh Hother]; [reflexivity | simpl; lia |].
  split; [exact Hhigh |].
  destruct (Hother "medium") as [Hdefault _]; [discriminate |].
  exact Hdefault.
Defined.

(** ** Result aggregator *)

Ltac rule_cases config :=
  unfold decideCompute, decideNetwork, decideStorage;
  destruct (ExpectedLoad config >? 300);
  destruct (ImportanceLevel config =? "high")%string;
  destruct (DataSize config >? 50);
  destruct (DataSize config >? 250);
  destruct (NetworkTraffic config >? 25).

Section Goroutines.

Variable config : ConfigSpec.

Lemma decideCompute_sent (elapsed : time_Duration) :
  Name (sent (decideCompute config elapsed)) = "compute"
  /\ Error (sent (decideCompute config elapsed)) = None
  /\ Duration (sent (decideCompute config elapsed)) = elapsed.
Proof. rule_cases config; repeat split. Qed.

Lemma decideNetwork_sent (elapsed : time_Duration) :
  Name (sent (decideNetwork config elapsed)) = "network"
  /\ Error (sent (decideNetwork config elapsed)) = None
  /\ Duration (sent (decideNetwork config elapsed)) = elapsed.
Proof. rule_cases config; repeat split. Qed.

Lemma decideStorage_sent (elapsed : time_Duration) :
  Name (sent (decideStorage config elapsed)) = "storage"
  /\ Error (sent (decideStorage config elapsed)) = None
  /\ Duration (sent (decideStorage config elapsed)) = elapsed.
Proof. rule_cases config; repeat split. Qed.

(** The measured time enters a rule's result in [Duration] only. *)
Lemma decideCompute_decision (d d' : time_Duration) :
  decision (sent (decideCompute config d))
  = decision (sent (decideCompute config d')).
Proof. rule_cases config; reflexivity. Qed.

Lemma decideNetwork_decision (d d' : time_Duration) :
  decision (sent (decideNetwork config d))
  = decision (sent (decideNetwork config d')).
Proof. rule_cases config; reflexivity. Qed.

Lemma decideStorage_decision (d d' : time_Duration) :
  decision (sent (decideStorage config d))
  = decision (sent (decideStorage config d')).
Proof. rule_cases config; reflexivity. Qed.

End Goroutines.

(** Every schedule delivers the sent values in one of their orders, and
    every order of three sent values is some schedule's. *)
Lemma deliver_Permutation {A : Type} (s : Schedule) (sends : list A) :
  deliver s sends ≡ₚ sends.
Proof.
  destruct sends as [|a [|b [|c [|? ?]]]]; try reflexivity.
  destruct s; cbn; solve_Permutation.
Qed.

Lemma three_orders {A : Type} (a b c : A) (l : list A) :
  l ≡ₚ [a; b; c] ->
  l = [a; b; c] \/ l = [a; c; b] \/ l = [b; a; c]
  \/ l = [b; c; a] \/ l = [c; a; b] \/ l = [c; b; a].
Proof.
  intros Hp. symmetry in Hp. apply permutations_Permutation in Hp.
  cbn in Hp. rewrite !elem_of_cons, elem_of_nil in Hp. tauto.
Qed.

Lemma deliver_complete {A : Type} (a b c : A) (l : list A) :
  l ≡ₚ [a; b; c] -> exists s, l = deliver s [a; b; c].
Proof.
  intros Hp. apply three_orders in Hp.
  destruct Hp as [-> | [-> | [-> | [-> | [-> | ->]]]]];
    [exists CNS | exists CSN | exists NCS | exists NSC | exists SCN | exists SNC];
    reflexivity.
Qed.

Lemma keyed_lookup (c n st : TimedResult) :
  keyed c n st !! "compute" = Some c
  /\ keyed c n st !! "network" = Some n
  /\ keyed c n st !! "storage" = Some st.
Proof. unfold keyed. repeat split; by simplify_map_eq. Qed.

Lemma keyed_dom (c n st : TimedResult) :
  dom (keyed c n st) = list_to_set decisionNames.
Proof. unfold keyed, decisionNames. rewrite !dom_insert_L. set_solver. Qed.

Lemma collect_deliver (s : Schedule) (c n st : TimedResult) :
  Name c = "compute" -> Name n = "network" -> Name st = "storage" ->
  Error c = None -> Error n = None -> Error st = None ->
  collect (deliver s [c; n; st]) = Returned (Some (keyed c n st)) None.
Proof.
  intros Hc Hn Hs Ec En Es.
  destruct s; cbn; rewrite Ec, En, Es, Hc, Hn, Hs; do 2 f_equal;
    apply map_eq; intros k; unfold keyed;
    rewrite !lookup_insert; repeat case_decide; congruence.
Qed.

Lemma collectTimedResourceSpecs_keyed (config : ConfigSpec) (t : Timing)
    (s : Schedule) :
  collectTimedResourceSpecs config t s
  = Returned
      (Some (keyed (sent (decideCompute config (computeElapsed t)))
                   (sent (decideNetwork config (networkElapsed t)))
                   (sent (decideStorage config (storageElapsed t)))))
      None.
Proof.
  unfold collectTimedResourceSpecs, goroutines. cbn [fmap list_fmap].
  apply collect_deliver;
    first [ apply decideCompute_sent | apply decideNetwork_sent
          | apply decideStorage_sent ].
Qed.

(** Membership in a list written out. *)
Ltac in_list := rewrite ?elem_of_cons; auto 8.

Lemma append_empty (s : string) : s ++ "" = s.
Proof.
  induction s as [|c s IH]; [reflexivity |].
  change (String c (s ++ "") = String c s). by rewrite IH.
Qed.

(** The message of the aggregator's error. *)
Lemma Errorf_decision (name : string) (e : error) :
  Fmt.Errorf "error in %s decision: %v" [Fmt.AString name; Fmt.AError (Some e)]
  = "error in " ++ name ++ " decision: " ++ e.
Proof. cbn. by rewrite append_empty. Qed.

(** C5: of three results that carry the three decision names, a failing one
    makes the aggregator return a nil map and one error, which names a
    failing decision; with none failing it returns a map whose keys are the
    three names, each result under its own name. *)
Theorem collect_all_or_nothing (r1 r2 r3 : TimedResult) :
  Name <$> [r1; r2; r3] ≡ₚ decisionNames ->
  ((exists r, r ∈ [r1; r2; r3] /\ Error r <> None) ->
   exists r e,
     r ∈ [r1; r2; r3] /\ Error r = Some e /\ Name r ∈ decisionNames
     /\ collect [r1; r2; r3]
        = Returned None (Some ("error in " ++ Name r ++ " decision: " ++ e)))
  /\ ((forall r, r ∈ [r1; r2; r3] -> Error r = None) ->
      exists m,
        collect [r1; r2; r3] = Returned (Some m) None
        /\ dom m = list_to_set decisionNames
        /\ forall r, r ∈ [r1; r2; r3] -> m !! Name r = Some r).
Proof.
  intros Hp.
  assert (Hnames : forall r, r ∈ [r1; r2; r3] -> Name r ∈ decisionNames).
  { intros r Hr. rewrite <- Hp. by apply list_elem_of_fmap_2. }
  split.
  - intros (r & Hr & Hfail).
    destruct (Error r1) as [e1|] eqn:E1.
    { exists r1, e1. repeat split; [in_list | done | apply Hnames; in_list |].
      unfold collect. cbn [collectLoop]. rewrite E1. by rewrite Errorf_decision. }
    destruct (Error r2) as [e2|] eqn:E2.
    { exists r2, e2. repeat split; [in_list | done | apply Hnames; in_list |].
      unfold collect. cbn [collectLoop]. rewrite E1, E2.
      by rewrite Errorf_decision. }
    destruct (Error r3) as [e3|] eqn:E3.
    { exists r3, e3. repeat split; [in_list | done | apply Hnames; in_list |].
      unfold collect. cbn [collectLoop]. rewrite E1, E2, E3.
      by rewrite Errorf_decision. }
    exfalso. apply Hfail.
    rewrite !elem_of_cons, elem_of_nil in Hr.
    destruct Hr as [-> | [-> | [-> | []]]]; assumption.
  - intros Hok.
    assert (E1 : Error r1 = None) by (apply Hok; in_list).
    assert (E2 : Error r2 = None) by (apply Hok; in_list).
    assert (E3 : Error r3 = None) by (apply Hok; in_list).
    eexists. split; [unfold collect; cbn [collectLoop]; by rewrite E1, E2, E3 |].
    cbn [fmap list_fmap] in Hp. unfold decisionNames in *.
    apply three_orders in Hp.
    split.
    + rewrite !dom_insert_L.
      destruct Hp as [Hp | [Hp | [Hp | [Hp | [Hp | Hp]]]]];
        injection Hp as -> -> ->; set_solver.
    + intros r Hr. rewrite !elem_of_cons, elem_of_nil in Hr.
      destruct Hp as [Hp | [Hp | [Hp | [Hp | [Hp | Hp]]]]];
        injection Hp as H1 H2 H3;
        destruct Hr as [-> | [-> | [-> | []]]];
        rewrite ?H1, ?H2, ?H3; by simplify_map_eq.
Qed.

Lemma collect_all_or_nothing_witness :
  exists r e,
    Name r ∈ decisionNames
    /\ collect [ sent (decideStorage (computeExample "web" 30) 100000000);
                 failedNetwork;
                 sent (decideCompute (computeExample "web" 30) 200000000) ]
       = Returned None (Some ("error in " ++ Name r ++ " decision: " ++ e)).
Proof.
  destruct (collect_all_or_nothing
              (sent (decideStorage (computeExample "web" 30) 100000000))
              failedNetwork
              (sent (decideCompute (computeExample "web" 30) 200000000)))
    as [Hfail _].
  - cbn. unfold decisionNames.
    etransitivity; [apply perm_swap |].
    etransitivity; [apply perm_skip, perm_swap |].
    apply perm_swap.
  - destruct Hfail as (r & e & _ & _ & Hn & Hc).
    + exists failedNetwork. split; [in_list | discriminate].
    + exists r, e. split; assumption.
Defined.

(** C8: a rule's decision is the same in every run, whatever time the run
    measures, and the decisions in the aggregated map are the same under
    every schedule of the three goroutines and every timing. *)
Theorem decisions_deterministic (config : ConfigSpec) :
  (forall d d' : time_Duration,
     Compute (sent (decideCompute config d))
     = Compute (sent (decideCompute config d')))
  /\ (forall d d' : time_Duration,
        Network (sent (decideNetwork config d))
        = Network (sent (decideNetwork config d')))
  /\ (forall d d' : time_Duration,
        Storage (sent (decideStorage config d))
        = Storage (sent (decideStorage config d')))
  /\ (forall (t t' : Timing) (s s' : Schedule),
        exists m m',
          collectTimedResourceSpecs config t s = Returned (Some m) None
          /\ collectTimedResourceSpecs config t' s' = Returned (Some m') None
          /\ decision <$> m = decision <$> m').
Proof.
  split; [| split; [| split]].
  - intros d d'.
    exact (f_equal (fun p => p.1.1.1.2) (decideCompute_decision config d d')).
  - intros d d'.
    exact (f_equal (fun p => p.1.1.2) (decideNetwork_decision config d d')).
  - intros d d'.
    exact (f_equal (fun p => p.1.2) (decideStorage_decision config d d')).
  - intros t t' s s'. do 2 eexists.
    split; [apply collectTimedResourceSpecs_keyed |].
    split; [apply collectTimedResourceSpecs_keyed |].
    unfold keyed. rewrite !fmap_insert, !fmap_empty.
    rewrite (decideCompute_decision config (computeElapsed t) (computeElapsed t')).
    rewrite (decideNetwork_decision config (networkElapsed t) (networkElapsed t')).
    rewrite (decideStorage_decision config (storageElapsed t) (storageElapsed t')).
    reflexivity.
Qed.

(** C9: every rule sends a result whose Error is nil, so on the results of
    the rules the aggregator returns the map and a nil error under every
    schedule: its failure branch is never taken. *)
Theorem rules_never_fail (config : ConfigSpec) (t : Timing) (s : Schedule) :
  (forall d : time_Duration,
     Error (sent (decideCompute config d)) = None
     /\ Error (sent (decideNetwork config d)) = None
     /\ Error (sent (decideStorage config d)) = None)
  /\ (exists m,
        collectTimedResourceSpecs config t s = Returned (Some m) None
        /\ dom m = list_to_set decisionNames)
  /\ (forall partial e,
        collectTimedResourceSpecs config t s <> Returned partial (Some e)).
Proof.
  split; [| split].
  - intros d. split; [| split];
      [apply decideCompute_sent | apply decideNetwork_sent
      | apply decideStorage_sent].
  - eexists. split; [apply collectTimedResourceSpecs_keyed | apply keyed_dom].
  - intros partial e. rewrite collectTimedResourceSpecs_keyed. discriminate.
Qed.

(** ** Manifest generator *)

Lemma append_assoc (a b c : string) : (a ++ b) ++ c = a ++ b ++ c.
Proof.
  induction a as [|x a IH]; [reflexivity |].
  change (String x ((a ++ b) ++ c) = String x (a ++ b ++ c)). by rewrite IH.
Qed.

Lemma Sprintf_portTemplate (port : Z) :
  Fmt.Sprintf portTemplate [Fmt.AInt port] = portEntry port.
Proof.
  cbv [portTemplate portEntry lines nl String.concat fmap list_fmap append
       Fmt.Sprintf Fmt.directive Fmt.formatArg].
  reflexivity.
Qed.

Lemma concat_cons (x : string) (xs : list string) :
  String.concat "" (x :: xs) = x ++ String.concat "" xs.
Proof. destruct xs; [cbn; by rewrite append_empty | reflexivity]. Qed.

(** The loop over the ports appends one entry per port, in order. *)
Lemma portString_entries (ports : list Z) (portString : string) :
  fold_left
    (fun portString port =>
       portString ++ Fmt.Sprintf portTemplate [Fmt.AInt port])
    ports portString
  = portString ++ String.concat "" (portEntries ports).
Proof.
  revert portString. induction ports as [|port ports IH]; intros portString.
  - cbn. by rewrite append_empty.
  - cbn [fold_left]. rewrite IH, Sprintf_portTemplate, append_assoc.
    unfold portEntries. by rewrite fmap_cons, concat_cons.
Qed.

(** C6: the manifest generated from an application name and three decision
    results is the descriptor whose requests.cpu is 0.8 times the compute
    decision's CPU and whose limits.cpu is that CPU, both printed with two
    decimals, whose requests.memory and limits.memory are both the compute
    decision's memory, and whose ports list has one containerPort entry per
    port of the network decision, in the order of its port list. *)
Theorem generateKubernetesManifest_descriptor (appName : string)
    (timedResults : gmap string TimedResult) :
  let compute := Compute (index timedResults "compute") in
  let network := Network (index timedResults "network") in
  let storage := Storage (index timedResults "storage") in
  generateKubernetesManifest appName timedResults (Ports network)
  = renderDescriptor
      {| appname := appName;
         requestsCPU := Fmt.formatFloat2 (CPU compute * f0_8)%float;
         requestsMemory := Memory compute;
         limitsCPU := Fmt.formatFloat2 (CPU compute);
         limitsMemory := Memory compute;
         containerPorts := Ports network;
         networkBandwidth := Bandwidth network;
         storageCapacity := Capacity storage;
         storageClass := Class storage |}
  /\ length (portEntries (Ports network)) = length (Ports network)
  /\ (forall (i : nat) (port : Z),
        Ports network !! i = Some port ->
        portEntries (Ports network) !! i = Some (portEntry port)).
Proof.
  cbn zeta. split; [| split].
  - unfold generateKubernetesManifest, renderDescriptor.
    rewrite portString_entries.
    cbn [appname requestsCPU requestsMemory limitsCPU limitsMemory
         containerPorts networkBandwidth storageCapacity storageClass].
    generalize (String.concat "" (portEntries
      (Ports (Network (index timedResults "network"))))) as entries.
    generalize (index timedResults "compute") as computeResult.
    generalize (index timedResults "network") as networkResult.
    generalize (index timedResults "storage") as storageResult.
    intros storageResult networkResult computeResult entries.
    cbv [manifestTemplate lines nl dquote String.concat fmap list_fmap
         append Fmt.Sprintf Fmt.directive Fmt.formatArg].
    reflexivity.
  - unfold portEntries. apply length_fmap.
  - intros i port Hi. unfold portEntries. by rewrite list_lookup_fmap, Hi.
Qed.

Lemma generateKubernetesManifest_descriptor_witness :
  portEntries (Ports (Network (index exampleResults "network"))) !! 1%nat
  = Some (portEntry 443).
Proof.
  apply (generateKubernetesManifest_descriptor "web" exampleResults).
  reflexivity.
Defined.

(** ** The processing's answer on the screen *)

Lemma Sprintf_errorDocument (message : error) :
  Fmt.Sprintf ("# Error" ++ nl ++ nl ++ "```" ++ nl ++ "%v" ++ nl ++ "```")
    [Fmt.AError (Some message)]
  = errorDocument message.
Proof.
  cbv [errorDocument nl append Fmt.Sprintf Fmt.directive Fmt.formatArg].
  reflexivity.
Qed.

Lemma Errorf_mkdir (e : error) :
  Fmt.Errorf "error creating k8s directory: %v" [Fmt.AError (Some e)]
  = "error creating k8s directory: " ++ e.
Proof. cbn. by rewrite append_empty. Qed.

Lemma Errorf_write (e : error) :
  Fmt.Errorf "error writing Kubernetes manifest: %v" [Fmt.AError (Some e)]
  = "error writing Kubernetes manifest: " ++ e.
Proof. cbn. by rewrite append_empty. Qed.

Lemma Errorf_manifest (e : error) :
  Fmt.Errorf "failed to generate/write manifest: %v" [Fmt.AError (Some e)]
  = "failed to generate/write manifest: " ++ e.
Proof. cbn. by rewrite append_empty. Qed.

Section Screen.

Variable filepath_Join : string -> string -> string.
Variable glamour_Render : string -> string -> string * option error.
Variable wizardView : model -> string.

(** With an error in the model there is no summary. *)
Lemma generateOutput_err (m : model) (e : error) :
  err m = Some e -> generateOutput m = "".
Proof. intros He. unfold generateOutput. by rewrite He. Qed.

(** In the done state an error is all that [View] shows. *)
Lemma View_err (m : model) (e : error) :
  quitting m = false -> state m = inputStateDone -> err m = Some e ->
  View glamour_Render wizardView m
  = let '(errorOutput, renderErr) := glamour_Render (errorDocument e) "dark" in
    match renderErr with
    | Some re =>
        Fmt.Sprintf ("Error rendering error message: %v" ++ nl
                     ++ "Original Error:" ++ nl ++ "%v" ++ nl)
          [Fmt.AError (Some re); Fmt.AError (Some e)]
    | None => errorOutput
    end.
Proof.
  intros Hq Hs He. unfold View.
  rewrite Hq, Hs, He, Sprintf_errorDocument. reflexivity.
Qed.

(** What a failure of the directory creation or of the file write leaves
    of [generateAndWriteManifest]: the model as it was, and the cause. *)
Lemma generateAndWriteManifest_failure (fs : FileSystem) (m : model)
    (timedResults : gmap string TimedResult) (e : error) :
  result m = Some timedResults ->
  mkdirAllError fs = Some e
  \/ (mkdirAllError fs = None /\ writeFileError fs = Some e) ->
  exists fs' cause,
    generateAndWriteManifest filepath_Join fs m = (fs', m, Some cause)
    /\ (cause = "error creating k8s directory: " ++ e
        \/ cause = "error writing Kubernetes manifest: " ++ e).
Proof.
  intros Hr Hio. unfold generateAndWriteManifest, os_MkdirAll, os_WriteFile.
  rewrite Hr. destruct Hio as [Hmk | [Hmk Hwr]].
  - rewrite Hmk, Errorf_mkdir. eauto.
  - rewrite Hmk. cbn [writeFileError]. rewrite Hwr, Errorf_write. eauto.
Qed.

(** C3, as the code has it: when the three decisions succeed but creating
    the directory or writing the manifest file fails, the failure is shown
    instead of the decision summary: the model's error is the failure, the
    summary is the empty string, and [View] renders the error document
    alone. *)
Theorem manifest_failure_replaces_summary (fs : FileSystem) (m : model)
    (timedResults : gmap string TimedResult) (e : error) :
  mkdirAllError fs = Some e
  \/ (mkdirAllError fs = None /\ writeFileError fs = Some e) ->
  quitting m = false ->
  let m' :=
    (Update filepath_Join fs m (ProcessCompleteMsg (Some timedResults))).1.2 in
  exists cause,
    (cause = "error creating k8s directory: " ++ e
     \/ cause = "error writing Kubernetes manifest: " ++ e)
    /\ result m' = Some timedResults
    /\ err m' = Some ("failed to generate/write manifest: " ++ cause)
    /\ output m' = ""
    /\ View glamour_Render wizardView m'
       = let message := "failed to generate/write manifest: " ++ cause in
         let '(errorOutput, renderErr) :=
           glamour_Render (errorDocument message) "dark" in
         match renderErr with
         | Some re =>
             Fmt.Sprintf ("Error rendering error message: %v" ++ nl
                          ++ "Original Error:" ++ nl ++ "%v" ++ nl)
               [Fmt.AError (Some re); Fmt.AError (Some message)]
         | None => errorOutput
         end.
Proof.
  intros Hio Hq. cbn zeta. unfold Update.
  set (m1 := {| state := inputStateDone; quitting := quitting m;
                config := config m; processing := false;
                spinner := spinner m; result := Some timedResults;
                err := err m; k8sManifestPath := k8sManifestPath m;
                output := output m |}).
  destruct (generateAndWriteManifest_failure fs m1 timedResults e eq_refl Hio)
    as (fs' & cause & -> & Hcause).
  exists cause. rewrite Errorf_manifest. cbn [fst snd].
  split; [exact Hcause |]. split; [reflexivity |]. split; [reflexivity |].
  split.
  - cbn [output]. eapply generateOutput_err. reflexivity.
  - erewrite View_err; [reflexivity | exact Hq | reflexivity | reflexivity].
Qed.

End Screen.

Lemma manifest_failure_replaces_summary_witness :
  exists cause,
    err (Update joinSlash readOnlyFS processingModel
           (ProcessCompleteMsg (Some exampleResults))).1.2
    = Some ("failed to generate/write manifest: " ++ cause)
    /\ output (Update joinSlash readOnlyFS processingModel
                 (ProcessCompleteMsg (Some exampleResults))).1.2
       = "".
Proof.
  destruct (manifest_failure_replaces_summary joinSlash renderSource noWizard
              readOnlyFS processingModel exampleResults
              "mkdir k8s: permission denied")
    as (cause & _ & _ & He & Ho & _).
  - left. reflexivity.
  - reflexivity.
  - exists cause. split; assumption.
Defined.

(** C3 as the spec words it fails: the decisions have succeeded and the
    directory cannot be made; the summary is empty, and the screen is the
    error document, which lists none of the decisions' values. *)
Lemma manifest_failure_hides_summary :
  let m' := (Update joinSlash readOnlyFS processingModel
               (ProcessCompleteMsg (Some exampleResults))).1.2 in
  let screen := View renderSource noWizard m' in
  result m' = Some exampleResults
  /\ output m' = ""
  /\ screen
     = errorDocument
         ("failed to generate/write manifest: "
          ++ "error creating k8s directory: mkdir k8s: permission denied")
  /\ contains "3.33" screen = false
  /\ contains "271Mi" screen = false
  /\ contains "200Mbps" screen = false
  /\ contains "8080" screen = false
  /\ contains "20Gi" screen = false
  /\ contains "standard" screen = false.
Proof. cbn zeta. repeat split; vm_compute; reflexivity. Qed.

(** The same run on a file system that takes the write: the summary lists
    the decisions' values and the path of the file. *)
Lemma summary_lists_decisions :
  let m' := (Update joinSlash writableFS processingModel
               (ProcessCompleteMsg (Some exampleResults))).1.2 in
  let screen := View renderSource noWizard m' in
  err m' = None
  /\ screen = output m'
  /\ contains "CPU=3.33 cores, Memory=271Mi (took 200.123456ms)" screen = true
  /\ contains "Bandwidth=200Mbps, Ports=[8080 443] (took 150ms)" screen = true
  /\ contains "Capacity=20Gi, Class=standard (took 100.000789ms)" screen = true
  /\ contains "k8s/web-deployment.yaml" screen = true.
Proof. cbn zeta. repeat split; vm_compute; reflexivity. Qed.

(** * Further properties of the code *)

(** ** The receive loop on arbitrary arrivals *)

Lemma collectLoop_succeeded (n : nat) (arrivals : list TimedResult)
    (acc : gmap string TimedResult) :
  (n <= length arrivals)%nat ->
  Forall succeeded (take n arrivals) ->
  collectLoop n arrivals acc
  = Returned
      (Some (foldl (fun m r => <[Name r := r]> m) acc (take n arrivals)))
      None.
Proof.
  revert arrivals acc. induction n as [|n IH]; intros arrivals acc Hlen Hok.
  - reflexivity.
  - destruct arrivals as [|r arrivals]; [cbn in Hlen; lia |].
    cbn [take] in Hok. inversion Hok as [|? ? Hr Hrest]; subst.
    cbn [collectLoop take foldl]. unfold succeeded in Hr. rewrite Hr.
    apply IH; [cbn in Hlen; lia | assumption].
Qed.

Lemma collectLoop_blocked (n : nat) (arrivals : list TimedResult)
    (acc : gmap string TimedResult) :
  (length arrivals < n)%nat ->
  Forall succeeded arrivals ->
  collectLoop n arrivals acc = Blocked.
Proof.
  revert arrivals acc. induction n as [|n IH]; intros arrivals acc Hlen Hok.
  - lia.
  - destruct arrivals as [|r arrivals]; [reflexivity |].
    inversion Hok as [|? ? Hr Hrest]; subst.
    cbn [collectLoop]. unfold succeeded in Hr. rewrite Hr.
    apply IH; [cbn in Hlen; lia | assumption].
Qed.

Lemma collectLoop_failure (n : nat) (prefix rest : list TimedResult)
    (r : TimedResult) (e : error) (acc : gmap string TimedResult) :
  (length prefix < n)%nat ->
  Forall succeeded prefix ->
  Error r = Some e ->
  collectLoop n (prefix ++ r :: rest) acc
  = Returned None (Some ("error in " ++ Name r ++ " decision: " ++ e)).
Proof.
  revert prefix acc. induction n as [|n IH]; intros prefix acc Hlen Hok He.
  - lia.
  - destruct prefix as [|p prefix].
    + cbn [app collectLoop]. rewrite He. by rewrite Errorf_decision.
    + inversion Hok as [|? ? Hp Hrest]; subst.
      cbn [app collectLoop]. unfold succeeded in Hp. rewrite Hp.
      apply IH; [cbn in Hlen; lia | assumption | assumption].
Qed.

(** Inserting the arrivals one after the other leaves, under each key, the
    last arrival of that name. *)
Lemma foldl_insert_lookup (arrivals : list TimedResult)
    (acc : gmap string TimedResult) (key : string) :
  foldl (fun m r => <[Name r := r]> m) acc arrivals !! key
  = match lastNamed key arrivals with
    | Some r => Some r
    | None => acc !! key
    end.
Proof.
  revert acc. induction arrivals as [|r arrivals IH]; intros acc.
  - reflexivity.
  - cbn [foldl]. rewrite IH. unfold lastNamed.
    rewrite filter_cons. destruct (decide (Name r = key)) as [Hk | Hk].
    + destruct (filter (fun r0 => Name r0 = key) arrivals) as [|x xs] eqn:Hf.
      * cbn. rewrite <- Hk. apply lookup_insert_eq.
      * rewrite last_cons_cons.
        destruct (last (x :: xs)) eqn:Hl; [done | by apply last_None in Hl].
    + destruct (last (filter (fun r0 => Name r0 = key) arrivals)); [done |].
      by apply lookup_insert_ne.
Qed.

(** The aggregator reads three arrivals and no more; with none of them
    failing it returns a map that holds, under each name, the last of the
    three that carried it. *)
Theorem collect_last_wins (arrivals : list TimedResult) :
  (3 <= length arrivals)%nat ->
  Forall succeeded (take 3 arrivals) ->
  exists m,
    collect arrivals = Returned (Some m) None
    /\ forall key, m !! key = lastNamed key (take 3 arrivals).
Proof.
  intros Hlen Hok. eexists. split.
  - unfold collect. by apply collectLoop_succeeded.
  - intros key. rewrite foldl_insert_lookup.
    by destruct (lastNamed key (take 3 arrivals)).
Qed.

Lemma collect_last_wins_witness :
  exists m,
    collect twiceCompute = Returned (Some m) None
    /\ (Duration <$> m !! "compute") = Some 3
    /\ m !! "network" = None.
Proof.
  destruct (collect_last_wins twiceCompute) as (m & Hm & Hlook).
  - cbn. lia.
  - repeat constructor.
  - exists m. split; [exact Hm |]. rewrite !Hlook. split; reflexivity.
Defined.

(** With fewer than three arrivals, none failing, the aggregator waits for
    ever. *)
Theorem collect_blocked (arrivals : list TimedResult) :
  (length arrivals < 3)%nat ->
  Forall succeeded arrivals ->
  collect arrivals = Blocked.
Proof. intros Hlen Hok. unfold collect. by apply collectLoop_blocked. Qed.

Lemma collect_blocked_witness :
  collect [ sent (decideCompute (computeExample "web" 30) 1);
            sent (decideStorage (computeExample "web" 30) 2) ]
  = Blocked.
Proof.
  apply collect_blocked.
  - cbn. lia.
  - repeat constructor.
Defined.

(** The first failure to arrive among the first three ends the loop: the
    error names that result, and what arrives behind it is not read. *)
Theorem collect_first_failure (prefix rest : list TimedResult)
    (r : TimedResult) (e : error) :
  (length prefix < 3)%nat ->
  Forall succeeded prefix ->
  Error r = Some e ->
  collect (prefix ++ r :: rest)
  = Returned None (Some ("error in " ++ Name r ++ " decision: " ++ e)).
Proof. intros Hlen Hok He. unfold collect. by apply collectLoop_failure. Qed.

Lemma collect_first_failure_witness :
  collect ([ sent (decideCompute (computeExample "web" 30) 1) ]
           ++ failedNetwork :: [])
  = Returned None (Some ("error in " ++ "network" ++ " decision: " ++ "no route")).
Proof.
  apply (collect_first_failure
           [ sent (decideCompute (computeExample "web" 30) 1) ] []
           failedNetwork "no route").
  - cbn. lia.
  - repeat constructor.
  - reflexivity.
Defined.

(** With two failing results, which one the error names is the
    scheduler's choice. *)
Theorem collect_error_follows_schedule (rc rn rs : TimedResult)
    (ec en : error) :
  Name rc = "compute" -> Name rn = "network" ->
  Error rc = Some ec -> Error rn = Some en ->
  collect (deliver CNS [rc; rn; rs])
  = Returned None (Some ("error in compute decision: " ++ ec))
  /\ collect (deliver NCS [rc; rn; rs])
     = Returned None (Some ("error in network decision: " ++ en))
  /\ collect (deliver CNS [rc; rn; rs]) <> collect (deliver NCS [rc; rn; rs]).
Proof.
  intros Hc Hn Ec En.
  assert (H1 : collect (deliver CNS [rc; rn; rs])
               = Returned None (Some ("error in compute decision: " ++ ec))).
  { pose proof (collectLoop_failure 3 [] [rn; rs] rc ec ∅) as H.
    rewrite Hc in H. apply H; [cbn; lia | constructor | assumption]. }
  assert (H2 : collect (deliver NCS [rc; rn; rs])
               = Returned None (Some ("error in network decision: " ++ en))).
  { pose proof (collectLoop_failure 3 [] [rc; rs] rn en ∅) as H.
    rewrite Hn in H. apply H; [cbn; lia | constructor | assumption]. }
  split; [exact H1 |]. split; [exact H2 |].
  rewrite H1, H2. discriminate.
Qed.

Lemma collect_error_follows_schedule_witness :
  collect (deliver CNS [failedCompute; failedNetwork; zeroTimedResult])
  <> collect (deliver NCS [failedCompute; failedNetwork; zeroTimedResult]).
Proof.
  apply (collect_error_follows_schedule failedCompute failedNetwork
           zeroTimedResult "no cores" "no route"); reflexivity.
Defined.

(** ** The manifest for any port list and any map *)

(** The template filled in, for any map and any port list. *)
Lemma manifest_rendered (appName : string)
    (timedResults : gmap string TimedResult) (ports : list Z) :
  generateKubernetesManifest appName timedResults ports
  = renderDescriptor
      {| appname := appName;
         requestsCPU :=
           Fmt.formatFloat2
             (CPU (Compute (index timedResults "compute")) * f0_8)%float;
         requestsMemory := Memory (Compute (index timedResults "compute"));
         limitsCPU :=
           Fmt.formatFloat2 (CPU (Compute (index timedResults "compute")));
         limitsMemory := Memory (Compute (index timedResults "compute"));
         containerPorts := ports;
         networkBandwidth := Bandwidth (Network (index timedResults "network"));
         storageCapacity := Capacity (Storage (index timedResults "storage"));
         storageClass := Class (Storage (index timedResults "storage")) |}.
Proof.
  unfold generateKubernetesManifest, renderDescriptor.
  rewrite portString_entries.
  cbn [appname requestsCPU requestsMemory limitsCPU limitsMemory
       containerPorts networkBandwidth storageCapacity storageClass].
  generalize (String.concat "" (portEntries ports)) as entries.
  generalize (index timedResults "compute") as computeResult.
  generalize (index timedResults "network") as networkResult.
  generalize (index timedResults "storage") as storageResult.
  intros storageResult networkResult computeResult entries.
  cbv [manifestTemplate lines nl dquote String.concat fmap list_fmap
       append Fmt.Sprintf Fmt.directive Fmt.formatArg].
  reflexivity.
Qed.

(** The ports block comes from the [ports] argument alone, whatever the
    network result in the map holds. *)
Theorem generateKubernetesManifest_ports (appName : string)
    (timedResults : gmap string TimedResult) (ports : list Z) :
  generateKubernetesManifest appName timedResults ports
  = renderDescriptor
      {| appname := appName;
         requestsCPU :=
           Fmt.formatFloat2
             (CPU (Compute (index timedResults "compute")) * f0_8)%float;
         requestsMemory := Memory (Compute (index timedResults "compute"));
         limitsCPU :=
           Fmt.formatFloat2 (CPU (Compute (index timedResults "compute")));
         limitsMemory := Memory (Compute (index timedResults "compute"));
         containerPorts := ports;
         networkBandwidth := Bandwidth (Network (index timedResults "network"));
         storageCapacity := Capacity (Storage (index timedResults "storage"));
         storageClass := Class (Storage (index timedResults "storage")) |}.
Proof. apply manifest_rendered. Qed.

Lemma zero_cores_request : Fmt.formatFloat2 (0 * f0_8)%float = "0.00".
Proof. vm_compute. reflexivity. Qed.

Lemma zero_cores_limit : Fmt.formatFloat2 0%float = "0.00".
Proof. vm_compute. reflexivity. Qed.

(** A map without a compute result is no error: the manifest asks for
    "0.00" cores and an empty memory. *)
Theorem manifest_without_compute (appName : string)
    (timedResults : gmap string TimedResult) :
  timedResults !! "compute" = None ->
  manifestOf appName timedResults
  = renderDescriptor
      {| appname := appName;
         requestsCPU := "0.00"; requestsMemory := "";
         limitsCPU := "0.00"; limitsMemory := "";
         containerPorts := Ports (Network (index timedResults "network"));
         networkBandwidth := Bandwidth (Network (index timedResults "network"));
         storageCapacity := Capacity (Storage (index timedResults "storage"));
         storageClass := Class (Storage (index timedResults "storage")) |}.
Proof.
  intros Hc. unfold manifestOf. rewrite manifest_rendered.
  assert (Hz : index timedResults "compute" = zeroTimedResult)
    by (unfold index; by rewrite Hc).
  rewrite Hz. cbn [zeroTimedResult Compute zeroComputeSpec CPU Memory].
  rewrite zero_cores_request, zero_cores_limit. reflexivity.
Qed.

Lemma manifest_without_compute_witness :
  manifestOf "web" ∅
  = renderDescriptor
      {| appname := "web";
         requestsCPU := "0.00"; requestsMemory := "";
         limitsCPU := "0.00"; limitsMemory := "";
         containerPorts := Ports (Network (index ∅ "network"));
         networkBandwidth := Bandwidth (Network (index ∅ "network"));
         storageCapacity := Capacity (Storage (index ∅ "storage"));
         storageClass := Class (Storage (index ∅ "storage")) |}.
Proof. apply (manifest_without_compute "web" ∅). reflexivity. Defined.

(** ** Writing the manifest *)

Lemma Sprintf_deployment_yaml (appName : string) :
  Fmt.Sprintf "%s-deployment.yaml" [Fmt.AString appName]
  = appName ++ "-deployment.yaml".
Proof. reflexivity. Qed.

Section ManifestFile.

Variable filepath_Join : string -> string -> string.

(** What a successful directory creation and file write leave. *)
Lemma manifest_written (fs : FileSystem) (m : model)
    (timedResults : gmap string TimedResult) :
  result m = Some timedResults ->
  mkdirAllError fs = None ->
  writeFileError fs = None ->
  let path := manifestPath filepath_Join (AppName (config m)) in
  exists fs',
    generateAndWriteManifest filepath_Join fs m
    = (fs', set_k8sManifestPath m path, None)
    /\ files fs' !! path = Some (manifestOf (AppName (config m)) timedResults)
    /\ (forall other, other <> path -> files fs' !! other = files fs !! other)
    /\ dirs fs' = {[ "k8s" ]} ∪ dirs fs.
Proof.
  intros Hr Hmk Hwr path.
  unfold generateAndWriteManifest, os_MkdirAll, os_WriteFile.
  rewrite Hr, Hmk. cbn [writeFileError]. rewrite Hwr.
  rewrite Sprintf_deployment_yaml. fold path.
  eexists. split; [reflexivity |]. cbn [files dirs].
  split; [apply lookup_insert_eq |]. split; [| reflexivity].
  intros other Hne. by apply lookup_insert_ne.
Qed.

(** On a file system that takes the directory and the write, the manifest
    is in the file of the application's name, no other file is touched, the
    directory is there, and the model records the path and nothing else. *)
Theorem generateAndWriteManifest_writes (fs : FileSystem) (m : model)
    (timedResults : gmap string TimedResult) :
  result m = Some timedResults ->
  mkdirAllError fs = None ->
  writeFileError fs = None ->
  let path := manifestPath filepath_Join (AppName (config m)) in
  exists fs',
    generateAndWriteManifest filepath_Join fs m
    = (fs', set_k8sManifestPath m path, None)
    /\ files fs' !! path = Some (manifestOf (AppName (config m)) timedResults)
    /\ (forall other, other <> path -> files fs' !! other = files fs !! other)
    /\ dirs fs' = {[ "k8s" ]} ∪ dirs fs.
Proof. apply manifest_written. Qed.

(** Where the directory cannot be made or the write fails, the model is as
    it was, its path not set, and no file but the manifest's has changed.
    The file system is as it was where the directory cannot be made, and
    its files are where the manifest's file cannot be opened; where the
    write fails after the file was opened, the file holds the bytes
    written so far, a prefix of the manifest, and what it held before is
    lost. *)
Theorem generateAndWriteManifest_failure_effects (fs : FileSystem)
    (m : model) (timedResults : gmap string TimedResult) (e : error) :
  result m = Some timedResults ->
  mkdirAllError fs = Some e
  \/ (mkdirAllError fs = None /\ writeFileError fs = Some e) ->
  let path := manifestPath filepath_Join (AppName (config m)) in
  exists fs' cause,
    generateAndWriteManifest filepath_Join fs m = (fs', m, Some cause)
    /\ (forall other, other <> path -> files fs' !! other = files fs !! other)
    /\ (mkdirAllError fs = Some e -> fs' = fs)
    /\ (mkdirAllError fs = None -> writeFileWritten fs = None ->
        files fs' = files fs)
    /\ (forall n, mkdirAllError fs = None -> writeFileWritten fs = Some n ->
        files fs' !! path
        = Some (String.substring 0 n
                  (manifestOf (AppName (config m)) timedResults))).
Proof.
  intros Hr Hio path.
  unfold generateAndWriteManifest, os_MkdirAll, os_WriteFile.
  rewrite Hr. destruct Hio as [Hmk | [Hmk Hwr]].
  - rewrite Hmk. do 2 eexists. split; [reflexivity |].
    split; [reflexivity |]. split; [reflexivity |].
    split; intros; congruence.
  - rewrite Hmk. cbn [writeFileError writeFileWritten]. rewrite Hwr.
    rewrite Sprintf_deployment_yaml. fold path.
    do 2 eexists. split; [reflexivity |].
    destruct (writeFileWritten fs) as [k |]; cbn [files].
    + split; [intros other Hne; by apply lookup_insert_ne |].
      split; [congruence |]. split; [discriminate |].
      intros n _ [= <-]. apply lookup_insert_eq.
    + split; [reflexivity |]. split; [congruence |].
      split; [reflexivity |]. discriminate.
Qed.

(** Writing the manifest a second time changes nothing: the same file is
    written over with the same text. *)
Theorem generateAndWriteManifest_again (fs : FileSystem) (m : model)
    (timedResults : gmap string TimedResult) :
  result m = Some timedResults ->
  mkdirAllError fs = None ->
  writeFileError fs = None ->
  let '(fs1, m1, _) := generateAndWriteManifest filepath_Join fs m in
  generateAndWriteManifest filepath_Join fs1 m1 = (fs1, m1, None).
Proof.
  intros Hr Hmk Hwr.
  unfold generateAndWriteManifest, os_MkdirAll, os_WriteFile.
  rewrite Hr, Hmk. cbn [writeFileError]. rewrite Hwr.
  cbn [result set_k8sManifestPath config mkdirAllError writeFileError
       dirs files].
  rewrite Hr. unfold set_k8sManifestPath at 1. cbn [result config].
  rewrite insert_insert_eq.
  replace ({[ "k8s" ]} ∪ ({[ "k8s" ]} ∪ dirs fs)) with ({[ "k8s" ]} ∪ dirs fs)
    by (rewrite (assoc_L (∪)), (idemp_L (∪)); reflexivity).
  reflexivity.
Qed.

End ManifestFile.

Lemma generateAndWriteManifest_writes_witness :
  exists fs',
    generateAndWriteManifest joinSlash writableFS
      answeredModel
    = (fs',
       set_k8sManifestPath
         answeredModel
         "k8s/web-deployment.yaml",
       None)
    /\ files fs' !! "k8s/web-deployment.yaml"
       = Some (manifestOf "web" exampleResults).
Proof.
  destruct (generateAndWriteManifest_writes joinSlash writableFS
              answeredModel
              exampleResults)
    as (fs' & Hrun & Hfile & _); [reflexivity | reflexivity | reflexivity |].
  exists fs'. split; [exact Hrun | exact Hfile].
Defined.

Lemma generateAndWriteManifest_failure_effects_witness :
  exists fs' cause,
    generateAndWriteManifest joinSlash fullDiskFS answeredModel
    = (fs', answeredModel, Some cause)
    /\ files fs' !! "k8s/web-deployment.yaml" = Some (nl ++ "apiVersion:").
Proof.
  destruct (generateAndWriteManifest_failure_effects joinSlash fullDiskFS
              answeredModel exampleResults
              "write k8s/web-deployment.yaml: no space left on device")
    as (fs' & cause & Hrun & _ & _ & _ & Hfile);
    [reflexivity | right; split; reflexivity |].
  exists fs', cause. split; [exact Hrun |].
  etransitivity; [apply (Hfile 12%nat); reflexivity |].
  vm_compute. reflexivity.
Defined.

Lemma generateAndWriteManifest_again_witness :
  let '(fs1, m1, _) :=
    generateAndWriteManifest joinSlash writableFS
      answeredModel in
  generateAndWriteManifest joinSlash fs1 m1 = (fs1, m1, None).
Proof.
  apply (generateAndWriteManifest_again joinSlash writableFS
           answeredModel
           exampleResults); reflexivity.
Defined.

(** ** The summary and the two answers of the processing *)

Section Answers.

Variable filepath_Join : string -> string -> string.
Variable glamour_Render : string -> string -> string * option error.
Variable wizardView : model -> string.

(** The summary's text, for any map and any path. *)
Lemma summary_rendered (m : model)
    (timedResults : gmap string TimedResult) :
  err m = None ->
  result m = Some timedResults ->
  generateOutput m = summaryText timedResults (k8sManifestPath m).
Proof.
  intros He Hr. unfold generateOutput, summaryText. rewrite He, Hr.
  generalize (index timedResults "compute") as computeResult.
  generalize (index timedResults "network") as networkResult.
  generalize (index timedResults "storage") as storageResult.
  intros storageResult networkResult computeResult.
  destruct (k8sManifestPath m =? "")%string;
    cbv [computeLine networkLine storageLine fileSection nl String.concat
         append Fmt.Sprintf Fmt.directive Fmt.formatArg];
    reflexivity.
Qed.

(** Without an error and with results the summary is the heading, one line
    per decision with its values and its duration, and the file section
    where a path is recorded; a missing result prints as Go's zero
    values. *)
Theorem generateOutput_summary (m : model)
    (timedResults : gmap string TimedResult) :
  err m = None ->
  result m = Some timedResults ->
  generateOutput m = summaryText timedResults (k8sManifestPath m).
Proof. apply summary_rendered. Qed.

(** A nil map as the processing's answer: no file is touched, the model
    holds the failure, and there is no summary. *)
Theorem Update_nil_results (fs : FileSystem) (m : model) :
  let '(fs', m', cmd) := Update filepath_Join fs m (ProcessCompleteMsg None) in
  fs' = fs
  /\ err m'
     = Some ("failed to generate/write manifest: "
             ++ "no results available to generate manifest")
  /\ result m' = None /\ output m' = "" /\ state m' = inputStateDone.
Proof. repeat split. Qed.

(** An error as the processing's answer: no manifest is made, the file
    system and the path are as they were, and the screen is the error
    document of that error. *)
Theorem Update_ProcessErrorMsg (fs : FileSystem) (m : model) (e : error) :
  quitting m = false ->
  let '(fs', m', cmd) :=
    Update filepath_Join fs m (ProcessErrorMsg (Some e)) in
  fs' = fs
  /\ err m' = Some e /\ output m' = "" /\ result m' = result m
  /\ k8sManifestPath m' = k8sManifestPath m
  /\ processing m' = false
  /\ View glamour_Render wizardView m'
     = let '(errorOutput, renderErr) :=
         glamour_Render (errorDocument e) "dark" in
       match renderErr with
       | Some re =>
           Fmt.Sprintf ("Error rendering error message: %v" ++ nl
                        ++ "Original Error:" ++ nl ++ "%v" ++ nl)
             [Fmt.AError (Some re); Fmt.AError (Some e)]
       | None => errorOutput
       end.
Proof.
  intros Hq. cbn [Update]. repeat split.
  erewrite View_err; [reflexivity | exact Hq | reflexivity | reflexivity].
Qed.

(** One whole run on a file system that takes the write: whatever the
    timing and the schedule, the processing answers with the results, the
    file of the application's name holds the descriptor of the three
    decisions for the configuration, the model has no error and records
    the path, the summary lists the results and the path, and the program
    quits. *)
Theorem run_writes_manifest (config0 : ConfigSpec) (t : Timing) (s : Schedule)
    (fs : FileSystem) (m : model) :
  config m = config0 ->
  err m = None ->
  mkdirAllError fs = None ->
  writeFileError fs = None ->
  let path := manifestPath filepath_Join (AppName config0) in
  let compute := Compute (sent (decideCompute config0 0)) in
  let network := Network (sent (decideNetwork config0 0)) in
  let storage := Storage (sent (decideStorage config0 0)) in
  exists timedResults fs' m',
    processResourceAllocation config0 t s
    = Some (ProcessCompleteMsg (Some timedResults))
    /\ Update filepath_Join fs m (ProcessCompleteMsg (Some timedResults))
       = (fs', m', tea_Quit)
    /\ files fs' !! path
       = Some (renderDescriptor
                 {| appname := AppName config0;
                    requestsCPU := Fmt.formatFloat2 (CPU compute * f0_8)%float;
                    requestsMemory := Memory compute;
                    limitsCPU := Fmt.formatFloat2 (CPU compute);
                    limitsMemory := Memory compute;
                    containerPorts := Ports network;
                    networkBandwidth := Bandwidth network;
                    storageCapacity := Capacity storage;
                    storageClass := Class storage |})
    /\ err m' = None
    /\ state m' = inputStateDone
    /\ k8sManifestPath m' = path
    /\ output m' = summaryText timedResults path.
Proof.
  intros Hc He Hmk Hwr path compute network storage.
  set (rc := sent (decideCompute config0 (computeElapsed t))).
  set (rn := sent (decideNetwork config0 (networkElapsed t))).
  set (rs := sent (decideStorage config0 (storageElapsed t))).
  exists (keyed rc rn rs).
  set (m1 := {| state := inputStateDone; quitting := quitting m;
                config := config m; processing := false;
                spinner := spinner m; result := Some (keyed rc rn rs);
                err := err m; k8sManifestPath := k8sManifestPath m;
                output := output m |}).
  destruct (manifest_written filepath_Join fs m1 (keyed rc rn rs)
              eq_refl Hmk Hwr) as (fs' & Hrun & Hfile & _ & _).
  cbn [m1 config] in Hrun, Hfile. rewrite Hc in Hrun, Hfile. fold m1 in Hrun.
  fold path in Hrun, Hfile.
  eexists fs', _. split; [| split; [| split]].
  - unfold processResourceAllocation.
    by rewrite collectTimedResourceSpecs_keyed.
  - unfold Update. fold m1. rewrite Hrun. reflexivity.
  - rewrite Hfile. apply (f_equal Some). unfold manifestOf.
    rewrite manifest_rendered.
    destruct (keyed_lookup rc rn rs) as (Lc & Ln & Ls).
    unfold index. rewrite Lc, Ln, Ls. cbn [default]. unfold id.
    pose proof (decideCompute_decision config0 (computeElapsed t) 0) as Dc.
    pose proof (decideNetwork_decision config0 (networkElapsed t) 0) as Dn.
    pose proof (decideStorage_decision config0 (storageElapsed t) 0) as Ds.
    apply (f_equal (fun p => p.1.1.1.2)) in Dc.
    apply (f_equal (fun p => p.1.1.2)) in Dn.
    apply (f_equal (fun p => p.1.2)) in Ds.
    cbn [decision fst snd] in Dc, Dn, Ds.
    unfold rc, rn, rs, compute, network, storage.
    by rewrite Dc, Dn, Ds.
  - cbn [err state k8sManifestPath output set_k8sManifestPath m1].
    repeat split; [exact He |].
    apply summary_rendered; [exact He | reflexivity].
Qed.

End Answers.

Lemma generateOutput_summary_witness :
  generateOutput answeredModel = summaryText exampleResults "".
Proof. apply (generateOutput_summary answeredModel exampleResults); reflexivity. Defined.

Lemma Update_ProcessErrorMsg_witness :
  let '(fs', m', cmd) :=
    Update joinSlash writableFS processingModel
      (ProcessErrorMsg (Some "error in network decision: no route")) in
  fs' = writableFS
  /\ View renderSource noWizard m'
     = errorDocument "error in network decision: no route".
Proof.
  pose proof (Update_ProcessErrorMsg joinSlash renderSource noWizard
                writableFS processingModel
                "error in network decision: no route" eq_refl) as H.
  cbn [Update] in H |- *.
  destruct H as (Hfs & _ & _ & _ & _ & _ & Hv). split; [exact Hfs | exact Hv].
Defined.

Lemma run_writes_manifest_witness :
  exists timedResults fs' m',
    processResourceAllocation (computeExample "web" 30)
      {| computeElapsed := 200123456; networkElapsed := 150000000;
         storageElapsed := 100000789 |} SNC
    = Some (ProcessCompleteMsg (Some timedResults))
    /\ Update joinSlash writableFS processingModel
         (ProcessCompleteMsg (Some timedResults))
       = (fs', m', tea_Quit)
    /\ k8sManifestPath m' = "k8s/web-deployment.yaml"
    /\ err m' = None.
Proof.
  destruct (run_writes_manifest joinSlash (computeExample "web" 30)
              {| computeElapsed := 200123456; networkElapsed := 150000000;
                 storageElapsed := 100000789 |} SNC writableFS processingModel)
    as (r & fs' & m' & Hp & Hu & _ & He & _ & Hk & _);
    [reflexivity | reflexivity | reflexivity | reflexivity |].
  exists r, fs', m'. repeat split; assumption.
Defined.

(** ** More on the rules *)

(** Up to a data size of 50 the memory is the importance rule's "1Gi" for
    importance high, whatever the load, and otherwise the load rule's
    "512Mi" above a load of 300 and the default "256Mi" up to it. *)
Theorem decideCompute_memory_small_data (config : ConfigSpec)
    (elapsed : time_Duration) :
  DataSize config <= 50 ->
  let memory := Memory (Compute (sent (decideCompute config elapsed))) in
  (ImportanceLevel config = "high" -> memory = "1Gi")
  /\ (ImportanceLevel config <> "high" -> ExpectedLoad config > 300 ->
      memory = "512Mi")
  /\ (ImportanceLevel config <> "high" -> ExpectedLoad config <= 300 ->
      memory = "256Mi").
Proof.
  intros Hd. cbn zeta. unfold decideCompute.
  destruct (Z.gtb_spec (DataSize config) 50) as [Hgt | _]; [lia |].
  split; [| split].
  - intros Hi. rewrite (importance_high _ Hi).
    destruct (ExpectedLoad config >? 300); reflexivity.
  - intros Hi Hl. rewrite (importance_not_high _ Hi).
    destruct (Z.gtb_spec (ExpectedLoad config) 300); [reflexivity | lia].
  - intros Hi Hl. rewrite (importance_not_high _ Hi).
    destruct (Z.gtb_spec (ExpectedLoad config) 300); [lia | reflexivity].
Qed.

Lemma decideCompute_memory_small_data_witness :
  Memory (Compute (sent (decideCompute
    {| AppName := "web"; ExpectedLoad := 900; DataSize := 50;
       NetworkTraffic := 0; ImportanceLevel := "high" |} 1)))
  = "1Gi".
Proof.
  apply (decideCompute_memory_small_data
    {| AppName := "web"; ExpectedLoad := 900; DataSize := 50;
       NetworkTraffic := 0; ImportanceLevel := "high" |} 1).
  - simpl; lia.
  - reflexivity.
Defined.

(** More data can mean less memory: with importance high, a data size
    from 51 to 3071 replaces the "1Gi" by a count of Mi between 268 and
    1023. *)
Theorem decideCompute_override_lowers_memory (config : ConfigSpec)
    (elapsed : time_Duration) :
  ImportanceLevel config = "high" ->
  50 < DataSize config < 3072 ->
  exists n,
    Memory (Compute (sent (decideCompute config elapsed)))
    = Fmt.formatInt n ++ "Mi"
    /\ 268 <= n < 1024
    /\ Memory (Compute (sent (decideCompute
         {| AppName := AppName config; ExpectedLoad := ExpectedLoad config;
            DataSize := 50; NetworkTraffic := NetworkTraffic config;
            ImportanceLevel := ImportanceLevel config |} elapsed)))
       = "1Gi".
Proof.
  intros Hi Hd. exists (256 + DataSize config ÷ 4). split; [| split].
  - rewrite decideCompute_memory_override by (apply Z.gtb_lt; lia).
    rewrite add_div_exact;
      [reflexivity | lia | lia
      | unfold Int.in_range, Int.min_int, Int.max_int; lia | lia].
  - rewrite Z.quot_div_nonneg by lia.
    assert (12 <= DataSize config / 4) by (apply Z.div_le_lower_bound; lia).
    assert (DataSize config / 4 < 768) by (apply Z.div_lt_upper_bound; lia).
    lia.
  - unfold decideCompute. cbn [ImportanceLevel DataSize ExpectedLoad].
    rewrite (importance_high _ Hi).
    destruct (ExpectedLoad config >? 300); reflexivity.
Qed.

Lemma decideCompute_override_lowers_memory_witness :
  exists n,
    Memory (Compute (sent (decideCompute
      {| AppName := "web"; ExpectedLoad := 10; DataSize := 51;
         NetworkTraffic := 0; ImportanceLevel := "high" |} 1)))
    = Fmt.formatInt n ++ "Mi"
    /\ 268 <= n < 1024.
Proof.
  destruct (decideCompute_override_lowers_memory
    {| AppName := "web"; ExpectedLoad := 10; DataSize := 51;
       NetworkTraffic := 0; ImportanceLevel := "high" |} 1)
    as (n & Hm & Hn & _).
  - reflexivity.
  - simpl; lia.
  - exists n. split; assumption.
Defined.

(** The dataSize rule of the storage decision, without overflow. *)
Lemma decideStorage_premium (config : ConfigSpec)
    (elapsed : time_Duration) :
  Int.in_range (DataSize config) ->
  DataSize config > 250 ->
  ImportanceLevel config <> "high" ->
  Storage (sent (decideStorage config elapsed))
  = {| Capacity := Fmt.formatInt (5 + DataSize config ÷ 100) ++ "Gi";
       Class := "premium" |}.
Proof.
  intros Hr Hd Hi. unfold decideStorage.
  rewrite (importance_not_high _ Hi).
  destruct (Z.gtb_spec (DataSize config) 250); [| lia].
  cbn [sent Storage]. rewrite <- (add_div_exact 5 100) by (assumption || lia).
  reflexivity.
Qed.

(** Above a data size of 250 and below importance high, the capacity is
    5 + dataSize/100, the division truncating, printed in decimal and
    followed by "Gi", in the class "premium". *)
Theorem decideStorage_capacity_dataSize (config : ConfigSpec)
    (elapsed : time_Duration) :
  Int.in_range (DataSize config) ->
  DataSize config > 250 ->
  ImportanceLevel config <> "high" ->
  Storage (sent (decideStorage config elapsed))
  = {| Capacity := Fmt.formatInt (5 + DataSize config ÷ 100) ++ "Gi";
       Class := "premium" |}.
Proof. apply decideStorage_premium. Qed.

Lemma decideStorage_capacity_dataSize_witness :
  Storage (sent (decideStorage
    {| AppName := "db"; ExpectedLoad := 10; DataSize := 2999;
       NetworkTraffic := 1; ImportanceLevel := "low" |} 1))
  = {| Capacity := Fmt.formatInt (5 + 2999 ÷ 100) ++ "Gi";
       Class := "premium" |}.
Proof.
  apply (decideStorage_capacity_dataSize
    {| AppName := "db"; ExpectedLoad := 10; DataSize := 2999;
       NetworkTraffic := 1; ImportanceLevel := "low" |} 1).
  - unfold Int.in_range, Int.min_int, Int.max_int; simpl; lia.
  - simpl; lia.
  - discriminate.
Defined.

(** Importance high can lower the capacity: from a data size of 1600 on,
    the configuration gets more than 20 Gi at any other importance level
    and "20Gi" at importance high. *)
Theorem decideStorage_high_caps_capacity (config : ConfigSpec)
    (elapsed : time_Duration) :
  Int.in_range (DataSize config) ->
  DataSize config >= 1600 ->
  ImportanceLevel config <> "high" ->
  exists n,
    Capacity (Storage (sent (decideStorage config elapsed)))
    = Fmt.formatInt n ++ "Gi"
    /\ n > 20
    /\ Capacity (Storage (sent (decideStorage (withImportance config "high")
                                  elapsed)))
       = "20Gi".
Proof.
  intros Hr Hd Hi. exists (5 + DataSize config ÷ 100). split; [| split].
  - rewrite decideStorage_premium by (assumption || lia).
    reflexivity.
  - rewrite Z.quot_div_nonneg by lia.
    assert (16 <= DataSize config / 100) by (apply Z.div_le_lower_bound; lia).
    lia.
  - by apply decideStorage_capacity_high.
Qed.

Lemma decideStorage_high_caps_capacity_witness :
  exists n,
    Capacity (Storage (sent (decideStorage
      {| AppName := "db"; ExpectedLoad := 10; DataSize := 1600;
         NetworkTraffic := 1; ImportanceLevel := "medium" |} 1)))
    = Fmt.formatInt n ++ "Gi"
    /\ n > 20.
Proof.
  destruct (decideStorage_high_caps_capacity
    {| AppName := "db"; ExpectedLoad := 10; DataSize := 1600;
       NetworkTraffic := 1; ImportanceLevel := "medium" |} 1)
    as (n & Hc & Hn & _).
  - unfold Int.in_range, Int.min_int, Int.max_int; simpl; lia.
  - simpl; lia.
  - discriminate.
  - exists n. split; assumption.
Defined.

(** ** The wizard *)

Lemma digitsValue_nonneg (s : string) (n v : Z) :
  0 <= n -> digitsValue n s = Some v -> 0 <= v.
Proof.
  revert n. induction s as [|ch s IH]; intros n Hn Hv; cbn in Hv.
  - congruence.
  - destruct (isDigit ch) eqn:Hd; [| discriminate].
    unfold isDigit in Hd. apply andb_true_iff in Hd as [Hlo _].
    apply Z.leb_le in Hlo. eapply IH; [| exact Hv]. lia.
Qed.

Lemma wrap_is_int (z : Z) : Int.in_range (Int.wrap z).
Proof.
  unfold Int.in_range, Int.wrap, Int.min_int, Int.max_int.
  pose proof (Z.mod_pos_bound (z + 2 ^ 63) (2 ^ 64) ltac:(lia)). lia.
Qed.

(** What [Atoi] returns without an error is an [int]. *)
Lemma Atoi_in_range (s : string) (n : Z) :
  strconv_Atoi s = (n, None) -> Int.in_range n.
Proof.
  unfold strconv_Atoi.
  set (split := match s with
                | String "-" rest => (true, rest)
                | String "+" rest => (false, rest)
                | _ => (false, s)
                end).
  destruct split as [neg digits].
  destruct digits as [|ch digits]; [discriminate |].
  destruct (digitsValue 0 (String ch digits)) as [v |] eqn:Hv; [| discriminate].
  pose proof (digitsValue_nonneg _ 0 v ltac:(lia) Hv) as Hpos.
  destruct neg.
  - destruct (v <=? 2 ^ 63); [| discriminate].
    intros [= <-]. apply wrap_is_int.
  - destruct (Z.ltb_spec v (2 ^ 63)); [| discriminate].
    intros [= <-]. unfold Int.in_range, Int.min_int, Int.max_int. lia.
Qed.

(** The numeric inputs' validation lets pass every text [Atoi] takes, and
    the empty text besides, and refuses every other text as not a number:
    the empty text, and it alone, passes the validation and fails the
    submission. *)
Theorem validateNumber_gap (s : string) :
  ((strconv_Atoi s).2 = None -> validateNumber s = None)
  /\ ((validateNumber s = None /\ (strconv_Atoi s).2 <> None) <-> s = "")
  /\ (s <> "" -> (strconv_Atoi s).2 <> None ->
      validateNumber s = Some "must be a number").
Proof.
  unfold validateNumber. split; [| split; [split |]].
  - destruct (strconv_Atoi s) as [n e]. cbn [snd]. intros ->.
    rewrite bool_decide_eq_false_2 by (intros H; by apply H).
    by rewrite andb_false_r.
  - intros [Hv He]. destruct (strconv_Atoi s) as [n e]. cbn [snd] in He.
    rewrite (bool_decide_eq_true_2 _ He), andb_true_r in Hv.
    destruct (s =? "")%string eqn:Hs; [by apply String.eqb_eq | discriminate].
  - intros ->. split; [reflexivity | discriminate].
  - intros Hs He. destruct (strconv_Atoi s) as [n e]. cbn [snd] in He.
    rewrite (bool_decide_eq_true_2 _ He), andb_true_r.
    apply String.eqb_neq in Hs. rewrite Hs. reflexivity.
Qed.

Lemma atIndex_Some {A : Type} (l : list A) (i : Z) :
  0 <= i < Z.of_nat (length l) ->
  exists x, atIndex l i = Some x /\ l !! Z.to_nat i = Some x.
Proof.
  intros Hi. unfold atIndex.
  destruct (Z.leb_spec 0 i); [| lia].
  destruct (Z.ltb_spec i (Z.of_nat (length l))); [| lia]. cbn [andb].
  destruct (lookup_lt_is_Some_2 l (Z.to_nat i) ltac:(lia)) as [x Hx].
  exists x. by rewrite Hx.
Qed.

Lemma atIndex_lookup {A : Type} (l : list A) (i : nat) (x : A) :
  l !! i = Some x -> atIndex l (Z.of_nat i) = Some x.
Proof.
  intros Hx. pose proof (lookup_lt_Some _ _ _ Hx) as Hlt. unfold atIndex.
  destruct (Z.leb_spec 0 (Z.of_nat i)); [| lia].
  destruct (Z.ltb_spec (Z.of_nat i) (Z.of_nat (length l))); [| lia].
  cbn [andb]. by rewrite Nat2Z.id.
Qed.

Lemma small_is_int (z : Z) : -10 <= z <= 10 -> Int.wrap z = z.
Proof.
  intros Hz. apply wrap_in_range.
  unfold Int.in_range, Int.min_int, Int.max_int. lia.
Qed.

Section WizardSteps.

Variable W : Wizard.Widgets.

Implicit Types w : Wizard.wizard W.

Lemma change_spec (f : Wizard.textinput_Model -> Wizard.textinput_Model)
    w (i : Z) :
  length (Wizard.inputs w) = 4%nat -> 0 <= i < 4 ->
  exists w',
    Wizard.change W f w i = Some w'
    /\ length (Wizard.inputs w') = 4%nat
    /\ Wizard.core w' = Wizard.core w
    /\ Wizard.focused w' = Wizard.focused w
    /\ Wizard.spinnerFrame w' = Wizard.spinnerFrame w.
Proof.
  intros Hlen Hi. unfold Wizard.change.
  destruct (atIndex_Some (Wizard.inputs w) i ltac:(lia)) as (x & -> & _).
  cbn [mbind option_bind]. eexists. split; [reflexivity |].
  cbn [Wizard.set_inputs Wizard.inputs Wizard.core Wizard.focused
       Wizard.spinnerFrame].
  by rewrite length_insert.
Qed.

(** Enter and Tab on a text input. *)
Lemma forward_spec w :
  wizard_ok w ->
  exists w',
    Wizard.forward W w = Some w'
    /\ length (Wizard.inputs w') = 4%nat
    /\ Wizard.spinnerFrame w' = Wizard.spinnerFrame w
    /\ ((Wizard.focused w < 3
         /\ Wizard.focused w' = Wizard.focused w + 1
         /\ Wizard.core w' = Wizard.core w)
        \/ (Wizard.focused w = 3
            /\ Wizard.focused w' = 3
            /\ Wizard.core w'
               = Wizard.set_state (Wizard.core w) inputStateList)).
Proof.
  intros (Hlen & Hf & Hs). unfold Wizard.forward. rewrite Hlen.
  change (int_sub (Z.of_nat 4) 1) with 3.
  destruct (change_spec Wizard.blurred w (Wizard.focused w) Hlen Hf)
    as (w1 & -> & Hlen1 & Hc1 & Hf1 & Hs1).
  cbn [mbind option_bind].
  destruct (Z.ltb_spec (Wizard.focused w) 3) as [Hlt | Hge].
  - unfold Int.add. rewrite small_is_int by lia.
    destruct (change_spec Wizard.focusedOn
                (Wizard.set_focused w1 (Wizard.focused w1 + 1))
                (Wizard.focused w1 + 1) Hlen1 ltac:(lia))
      as (w2 & Hw2 & Hlen2 & Hc2 & Hf2 & Hs2).
    cbn [Wizard.set_focused Wizard.focused] in Hw2 |- *.
    exists w2. rewrite Hw2. split; [reflexivity |].
    cbn [Wizard.set_focused Wizard.core Wizard.focused Wizard.spinnerFrame]
      in Hc2, Hf2, Hs2.
    repeat split; [assumption | congruence |]. left.
    repeat split; [assumption | congruence | congruence].
  - eexists. split; [reflexivity |].
    cbn [Wizard.set_core Wizard.inputs Wizard.spinnerFrame Wizard.focused
         Wizard.core].
    repeat split; [assumption | assumption |]. right.
    repeat split; [lia | lia | congruence].
Qed.

(** Shift+Tab in the text state and in the list state. *)
Lemma backward_spec w :
  wizard_ok w ->
  exists w',
    Wizard.backward W w = Some w'
    /\ length (Wizard.inputs w') = 4%nat
    /\ Wizard.spinnerFrame w' = Wizard.spinnerFrame w
    /\ match state (Wizard.core w) with
       | inputStateText =>
           Wizard.focused w' = Z.max 0 (Wizard.focused w - 1)
           /\ Wizard.core w' = Wizard.core w
       | inputStateList =>
           Wizard.focused w' = 3
           /\ Wizard.core w'
              = Wizard.set_state (Wizard.core w) inputStateText
       | _ => w' = w
       end.
Proof.
  intros (Hlen & Hf & Hs). unfold Wizard.backward.
  destruct (state (Wizard.core w)) eqn:Hst.
  - destruct (change_spec Wizard.blurred w (Wizard.focused w) Hlen Hf)
      as (w1 & -> & Hlen1 & Hc1 & Hf1 & Hs1).
    cbn [mbind option_bind]. unfold int_sub.
    rewrite small_is_int by lia.
    assert (Hmax : Wizard.max 0 (Wizard.focused w1 - 1)
                   = Z.max 0 (Wizard.focused w - 1)).
    { unfold Wizard.max. rewrite Hf1.
      destruct (Z.gtb_spec 0 (Wizard.focused w - 1)); lia. }
    rewrite Hmax.
    destruct (change_spec Wizard.focusedOn
                (Wizard.set_focused w1 (Z.max 0 (Wizard.focused w - 1)))
                (Z.max 0 (Wizard.focused w - 1)) Hlen1 ltac:(lia))
      as (w2 & Hw2 & Hlen2 & Hc2 & Hf2 & Hs2).
    cbn [Wizard.set_focused Wizard.focused] in Hw2 |- *.
    exists w2. rewrite Hw2. split; [reflexivity |].
    cbn [Wizard.set_focused Wizard.core Wizard.focused Wizard.spinnerFrame]
      in Hc2, Hf2, Hs2.
    repeat split; [assumption | congruence | assumption | congruence].
  - cbn [Wizard.set_focused Wizard.set_core Wizard.inputs Wizard.focused].
    rewrite Hlen. change (int_sub (Z.of_nat 4) 1) with 3.
    destruct (change_spec Wizard.focusedOn
                (Wizard.set_focused
                   (Wizard.set_core w
                      (Wizard.set_state (Wizard.core w) inputStateText)) 3)
                3 Hlen ltac:(lia))
      as (w2 & Hw2 & Hlen2 & Hc2 & Hf2 & Hs2).
    exists w2. split; [exact Hw2 |].
    cbn [Wizard.set_focused Wizard.set_core Wizard.core Wizard.focused
         Wizard.spinnerFrame] in Hc2, Hf2, Hs2.
    repeat split; assumption.
  - exists w. repeat split; assumption.
  - exists w. repeat split; assumption.
Qed.

(** The message handed to the focused widget. *)
Lemma toWidget_spec w (msg : Wizard.tea_Msg) :
  wizard_ok w ->
  exists w' cmd,
    Wizard.toWidget W w msg = Some (w', cmd)
    /\ length (Wizard.inputs w') = 4%nat
    /\ Wizard.core w' = Wizard.core w
    /\ Wizard.focused w' = Wizard.focused w
    /\ Wizard.spinnerFrame w' = Wizard.spinnerFrame w
    /\ (state (Wizard.core w) = inputStateProcessing
        \/ state (Wizard.core w) = inputStateDone ->
        w' = w /\ cmd = Wizard.cmd_nil).
Proof.
  intros (Hlen & Hf & Hs). unfold Wizard.toWidget.
  destruct (state (Wizard.core w)) eqn:Hst.
  - destruct (atIndex_Some (Wizard.inputs w) (Wizard.focused w) ltac:(lia))
      as (x & -> & _).
    cbn [mbind option_bind].
    destruct (Wizard.textinput_Update W x msg) as [x' cmd].
    do 2 eexists. split; [reflexivity |].
    cbn [Wizard.set_inputs Wizard.inputs Wizard.core Wizard.focused
         Wizard.spinnerFrame].
    rewrite length_insert.
    repeat split; try assumption; try reflexivity;
      match goal with H : _ \/ _ |- _ => destruct H; discriminate end.
  - destruct (Wizard.list_Update W (Wizard.list_ w) msg) as [l cmd].
    do 2 eexists. split; [reflexivity |].
    repeat split; try assumption; try reflexivity;
      match goal with H : _ \/ _ |- _ => destruct H; discriminate end.
  - do 2 eexists. split; [reflexivity |].
    repeat split; try assumption; reflexivity.
  - do 2 eexists. split; [reflexivity |].
    repeat split; try assumption; reflexivity.
Qed.

End WizardSteps.

Section WizardUpdate.

Variable W : Wizard.Widgets.

Implicit Types w : Wizard.wizard W.

Lemma wizard_ok_frame w w' :
  wizard_ok w ->
  length (Wizard.inputs w') = 4%nat ->
  0 <= Wizard.focused w' < 4 ->
  Wizard.spinnerFrame w' = Wizard.spinnerFrame w ->
  wizard_ok w'.
Proof. intros (_ & _ & Hs) Hlen Hf Hsf. repeat split; try lia; assumption. Qed.

(** A submission fails or starts the processing; it touches the model's
    fields behind the wizard only. *)
Lemma submit_frame w :
  wizard_ok w ->
  exists w' cmd,
    Wizard.submit W w = Some (w', cmd)
    /\ Wizard.inputs w' = Wizard.inputs w
    /\ Wizard.focused w' = Wizard.focused w
    /\ Wizard.spinnerFrame w' = Wizard.spinnerFrame w.
Proof.
  intros (Hlen & Hf & Hs). unfold Wizard.submit, Wizard.failed.
  destruct (Wizard.list_SelectedItem W (Wizard.list_ w));
    [| do 2 eexists; split; [reflexivity | repeat split]].
  destruct (atIndex_Some (Wizard.inputs w) 0 ltac:(lia)) as (x0 & -> & _).
  destruct (atIndex_Some (Wizard.inputs w) 1 ltac:(lia)) as (x1 & -> & _).
  destruct (atIndex_Some (Wizard.inputs w) 2 ltac:(lia)) as (x2 & -> & _).
  destruct (atIndex_Some (Wizard.inputs w) 3 ltac:(lia)) as (x3 & -> & _).
  cbn [mbind option_bind].
  destruct (strconv_Atoi (Wizard.Value x1)) as [n1 [e1 |]];
    [do 2 eexists; split; [reflexivity | repeat split] |].
  destruct (strconv_Atoi (Wizard.Value x2)) as [n2 [e2 |]];
    [do 2 eexists; split; [reflexivity | repeat split] |].
  destruct (strconv_Atoi (Wizard.Value x3)) as [n3 [e3 |]];
    do 2 eexists; (split; [reflexivity | repeat split]).
Qed.

(** The spinner's step. *)
Lemma tick_spec (fs : FileSystem) w (t : Z) :
  wizard_ok w ->
  processing (Wizard.core w) = true ->
  exists frame,
    spinnerFrames !! Z.to_nat ((Wizard.spinnerFrame w + 1) mod 10) = Some frame
    /\ Wizard.Update W fs w (Wizard.TickMsg t)
       = Some (fs,
               Wizard.set_core
                 (Wizard.set_spinnerFrame w ((Wizard.spinnerFrame w + 1) mod 10))
                 (Wizard.set_spinner (Wizard.core w) frame),
               Wizard.cmd_tick).
Proof.
  intros (Hlen & Hf & Hs) Hp. cbn [Wizard.Update]. rewrite Hp.
  unfold Int.add. rewrite wrap_in_range
    by (unfold Int.in_range, Int.min_int, Int.max_int; lia).
  change (Z.of_nat (length spinnerFrames)) with 10.
  rewrite Z.rem_mod_nonneg by lia.
  pose proof (Z.mod_pos_bound (Wizard.spinnerFrame w + 1) 10 ltac:(lia)) as Hb.
  cbn [Wizard.set_spinnerFrame Wizard.spinnerFrame Wizard.core].
  destruct (atIndex_Some spinnerFrames ((Wizard.spinnerFrame w + 1) mod 10)
              ltac:(cbn; lia)) as (frame & -> & Hl).
  exists frame. split; [exact Hl | reflexivity].
Qed.

(** Every message leaves a well-formed wizard well-formed, and no index
    goes outside its slice. *)
Lemma Update_keeps_ok (fs : FileSystem) w (msg : Wizard.tea_Msg) :
  wizard_ok w ->
  exists fs' w' cmd,
    Wizard.Update W fs w msg = Some (fs', w', cmd) /\ wizard_ok w'.
Proof.
  intros Hok.
  assert (Hwidget : forall w1, wizard_ok w1 ->
            exists fs' w' cmd,
              (w ← Some w1;
               '(w, cmd) ← Wizard.toWidget W w msg; Some (fs, w, cmd))
              = Some (fs', w', cmd) /\ wizard_ok w').
  { intros w1 Hok1.
    destruct (toWidget_spec W w1 msg Hok1)
      as (w' & cmd & Hw & Hlen & _ & Hf & Hs & _).
    exists fs, w', cmd. cbn [mbind option_bind]. rewrite Hw.
    split; [reflexivity |].
    apply (wizard_ok_frame w1); try assumption.
    rewrite Hf. apply Hok1. }
  assert (Hforward : exists fs' w' cmd,
            (w ← Wizard.forward W w;
             '(w, cmd) ← Wizard.toWidget W w msg; Some (fs, w, cmd))
            = Some (fs', w', cmd) /\ wizard_ok w').
  { destruct (forward_spec W w Hok) as (w1 & -> & Hlen & Hs & Hcase).
    apply Hwidget. apply (wizard_ok_frame w); try assumption.
    destruct Hok as (_ & Hf & _).
    destruct Hcase as [(? & -> & _) | (? & -> & _)]; lia. }
  assert (Hbackward : exists fs' w' cmd,
            (w ← Wizard.backward W w;
             '(w, cmd) ← Wizard.toWidget W w msg; Some (fs, w, cmd))
            = Some (fs', w', cmd) /\ wizard_ok w').
  { destruct (backward_spec W w Hok) as (w1 & -> & Hlen & Hs & Hcase).
    apply Hwidget. apply (wizard_ok_frame w); try assumption.
    destruct Hok as (_ & Hf & _).
    destruct (state (Wizard.core w));
      [destruct Hcase as [-> _]; lia | destruct Hcase as [-> _]; lia
      | subst w1; assumption | subst w1; assumption]. }
  destruct msg as [key runes | answer | t | Width Height | tag].
  - destruct key; cbn [Wizard.Update]; try assumption.
    + do 3 eexists. split; [reflexivity |].
      apply (wizard_ok_frame w); try apply Hok; reflexivity.
    + destruct (state (Wizard.core w)); try assumption.
      * destruct (submit_frame w Hok) as (w' & cmd & -> & Hi & Hf & Hs).
        exists fs, w', cmd. split; [reflexivity |].
        apply (wizard_ok_frame w); try assumption.
        -- rewrite Hi. apply Hok.
        -- rewrite Hf. apply Hok.
      * by apply Hwidget.
      * by apply Hwidget.
    + destruct (state (Wizard.core w)); try assumption; by apply Hwidget.
    + destruct (state (Wizard.core w)); try assumption; by apply Hwidget.
    + by apply Hwidget.
  - cbn [Wizard.Update].
    destruct (Update (Wizard.filepath_Join W) fs (Wizard.core w) answer)
      as [[fs' m'] cmd].
    do 3 eexists. split; [reflexivity |].
    apply (wizard_ok_frame w); try apply Hok; reflexivity.
  - destruct (processing (Wizard.core w)) eqn:Hp.
    + destruct (tick_spec fs w t Hok Hp) as (frame & _ & ->).
      do 3 eexists. split; [reflexivity |].
      destruct Hok as (Hlen & Hf & Hs).
      pose proof (Z.mod_pos_bound (Wizard.spinnerFrame w + 1) 10 ltac:(lia)).
      repeat split; try assumption; cbn; lia.
    + cbn [Wizard.Update]. rewrite Hp. by apply Hwidget.
  - cbn [Wizard.Update]. apply Hwidget.
    apply (wizard_ok_frame w); try assumption;
      destruct (state _); try apply Hok; reflexivity.
  - cbn [Wizard.Update]. by apply Hwidget.
Qed.

(** From the initial model no sequence of messages makes the wizard index
    outside its inputs or its spinner frames: every session runs to its
    end, on a wizard of four inputs with the focus index and the frame
    index in range. *)
Theorem wizard_never_panics (fs : FileSystem) (msgs : list Wizard.tea_Msg) :
  exists fs' w',
    Wizard.run W fs (Wizard.initialModel W) msgs = Some (fs', w')
    /\ wizard_ok w'.
Proof.
  assert (Hinit : wizard_ok (Wizard.initialModel W))
    by (repeat split; cbn; lia).
  revert Hinit. generalize (Wizard.initialModel W) as w. revert fs.
  induction msgs as [|msg msgs IH]; intros fs w Hok.
  - exists fs, w. split; [reflexivity | assumption].
  - destruct (Update_keeps_ok fs w msg Hok) as (fs1 & w1 & cmd & Hu & Hok1).
    cbn [Wizard.run]. rewrite Hu. cbn [mbind option_bind].
    by apply IH.
Qed.

End WizardUpdate.

Section WizardSessions.

Variable W : Wizard.Widgets.
Variable glamour_Render : string -> string -> string * option error.
Variable wizardView : model -> string.

Implicit Types w : Wizard.wizard W.

(** A key handed on to the focused widget, after the wizard's own move. *)
Lemma finish_spec (fs : FileSystem) w1 (msg : Wizard.tea_Msg) :
  wizard_ok w1 ->
  exists w' cmd,
    (w ← Some w1; '(w, cmd) ← Wizard.toWidget W w msg; Some (fs, w, cmd))
    = Some (fs, w', cmd)
    /\ wizard_ok w'
    /\ Wizard.core w' = Wizard.core w1
    /\ Wizard.focused w' = Wizard.focused w1.
Proof.
  intros Hok1.
  destruct (toWidget_spec W w1 msg Hok1)
    as (w' & cmd & Hw & Hlen & Hc & Hf & Hs & _).
  exists w', cmd. cbn [mbind option_bind]. rewrite Hw.
  split; [reflexivity |]. split; [| split; assumption].
  apply (wizard_ok_frame W w1); try assumption. rewrite Hf. apply Hok1.
Qed.

(** Shift+Tab undoes Tab: from any text input, Tab and then Shift+Tab
    lead back to the same input, the last input's way leading through the
    list. *)
Theorem tab_then_shift_tab (fs : FileSystem) w (runes runes' : string) :
  wizard_ok w ->
  state (Wizard.core w) = inputStateText ->
  exists w',
    Wizard.run W fs w
      [Wizard.KeyMsg Wizard.KeyTab runes;
       Wizard.KeyMsg Wizard.KeyShiftTab runes']
    = Some (fs, w')
    /\ Wizard.focused w' = Wizard.focused w
    /\ state (Wizard.core w') = inputStateText.
Proof.
  intros Hok Hst. cbn [Wizard.run Wizard.Update]. rewrite Hst.
  destruct (forward_spec W w Hok) as (w1 & -> & Hlen1 & Hs1 & Hcase).
  assert (Hok1 : wizard_ok w1).
  { apply (wizard_ok_frame W w); try assumption.
    destruct Hok as (_ & Hf & _).
    destruct Hcase as [(? & -> & _) | (? & -> & _)]; lia. }
  destruct (finish_spec fs w1 (Wizard.KeyMsg Wizard.KeyTab runes) Hok1)
    as (w2 & cmd2 & -> & Hok2 & Hc2 & Hf2).
  cbn [mbind option_bind].
  destruct (backward_spec W w2 Hok2) as (w3 & -> & Hlen3 & Hs3 & Hback).
  assert (Hok3 : wizard_ok w3).
  { apply (wizard_ok_frame W w2); try assumption.
    destruct Hok2 as (_ & Hf & _).
    destruct (state (Wizard.core w2));
      [destruct Hback as [-> _]; lia | destruct Hback as [-> _]; lia
      | subst w3; assumption | subst w3; assumption]. }
  destruct (finish_spec fs w3 (Wizard.KeyMsg Wizard.KeyShiftTab runes') Hok3)
    as (w4 & cmd4 & -> & Hok4 & Hc4 & Hf4).
  exists w4. split; [reflexivity |]. rewrite Hc4, Hf4.
  destruct Hok as (_ & Hf & _).
  destruct Hcase as [(Hlt & Hf1 & Hc1) | (Heq & Hf1 & Hc1)].
  - rewrite Hc2, Hc1, Hst in Hback. destruct Hback as [Hf3 Hc3].
    rewrite Hf3, Hc3, Hf2, Hf1. split; [lia | assumption].
  - rewrite Hc2, Hc1 in Hback. cbn [Wizard.set_state state] in Hback.
    destruct Hback as [Hf3 Hc3]. rewrite Hf3, Hc3. split; [lia | reflexivity].
Qed.

(** Enter on the list with a level selected and three numbers in the
    numeric inputs: the configuration holds the name, the three values
    [Atoi] gives, each an [int], and the level; the model is processing;
    and the command runs the processing for that configuration, with the
    tick. *)
Theorem submit_starts_processing (fs : FileSystem) w (level runes : string)
    (x0 x1 x2 x3 : Wizard.textinput_Model) (n1 n2 n3 : Z) :
  state (Wizard.core w) = inputStateList ->
  Wizard.inputs w = [x0; x1; x2; x3] ->
  Wizard.list_SelectedItem W (Wizard.list_ w) = Some level ->
  strconv_Atoi (Wizard.Value x1) = (n1, None) ->
  strconv_Atoi (Wizard.Value x2) = (n2, None) ->
  strconv_Atoi (Wizard.Value x3) = (n3, None) ->
  let c := {| AppName := Wizard.Value x0; ExpectedLoad := n1; DataSize := n2;
              NetworkTraffic := n3; ImportanceLevel := level |} in
  Wizard.Update W fs w (Wizard.KeyMsg Wizard.KeyEnter runes)
  = Some (fs,
          Wizard.set_core w
            (Wizard.set_state
               (Wizard.set_processing (Wizard.set_config (Wizard.core w) c) true)
               inputStateProcessing),
          Wizard.cmd_Batch (Wizard.cmd_process c) Wizard.cmd_tick)
  /\ Int.in_range (ExpectedLoad c)
  /\ Int.in_range (DataSize c)
  /\ Int.in_range (NetworkTraffic c).
Proof.
  intros Hst Hin Hsel H1 H2 H3 c. split.
  - cbn [Wizard.Update]. rewrite Hst. unfold Wizard.submit.
    rewrite Hsel, Hin.
    change (atIndex [x0; x1; x2; x3] 0) with (Some x0).
    change (atIndex [x0; x1; x2; x3] 1) with (Some x1).
    change (atIndex [x0; x1; x2; x3] 2) with (Some x2).
    change (atIndex [x0; x1; x2; x3] 3) with (Some x3).
    cbn [mbind option_bind]. rewrite H1, H2, H3. reflexivity.
  - cbn [c ExpectedLoad DataSize NetworkTraffic].
    split; [| split]; eapply Atoi_in_range; eassumption.
Qed.

(** Enter on the list with a numeric input [Atoi] refuses: the first such
    input, in the order load, data size, traffic, is the one the error
    names; the model is done with that error, no processing is started
    and no command is given, so that the program stays open. *)
Theorem submit_reports_first_bad_field (fs : FileSystem) w
    (level runes : string) (k : nat) (x : Wizard.textinput_Model)
    (v : Z) (e : NumError) :
  state (Wizard.core w) = inputStateList ->
  length (Wizard.inputs w) = 4%nat ->
  Wizard.list_SelectedItem W (Wizard.list_ w) = Some level ->
  (1 <= k <= 3)%nat ->
  Wizard.inputs w !! k = Some x ->
  strconv_Atoi (Wizard.Value x) = (v, Some e) ->
  (forall (j : nat) (y : Wizard.textinput_Model),
     (1 <= j < k)%nat -> Wizard.inputs w !! j = Some y ->
     (strconv_Atoi (Wizard.Value y)).2 = None) ->
  exists w',
    Wizard.Update W fs w (Wizard.KeyMsg Wizard.KeyEnter runes)
    = Some (fs, w', Wizard.cmd_nil)
    /\ err (Wizard.core w')
       = Some ("invalid " ++ fieldLabel k ++ ": "
               ++ NumError_Error (Wizard.strconv_Quote W) (Wizard.Value x) e)
    /\ state (Wizard.core w') = inputStateDone
    /\ processing (Wizard.core w') = processing (Wizard.core w)
    /\ result (Wizard.core w') = result (Wizard.core w).
Proof.
  intros Hst Hlen Hsel Hk Hx He Hbefore.
  destruct (Wizard.inputs w) as [|x0 [|x1 [|x2 [|x3 [|? ?]]]]] eqn:Hin;
    try discriminate.
  cbn [Wizard.Update]. rewrite Hst. unfold Wizard.submit, Wizard.failed.
  rewrite Hsel, Hin.
  change (atIndex [x0; x1; x2; x3] 0) with (Some x0).
  change (atIndex [x0; x1; x2; x3] 1) with (Some x1).
  change (atIndex [x0; x1; x2; x3] 2) with (Some x2).
  change (atIndex [x0; x1; x2; x3] 3) with (Some x3).
  cbn [mbind option_bind].
  destruct k as [|[|[|[|k]]]]; try lia.
  - injection Hx as ->. rewrite He. eexists. split; [reflexivity |].
    cbn [Wizard.set_core Wizard.core Wizard.set_state Wizard.set_err
         Wizard.set_config err state processing result fieldLabel].
    unfold Fmt.Errorf. cbn [Fmt.Sprintf Fmt.directive Fmt.formatArg].
    rewrite append_empty. repeat split.
  - injection Hx as ->.
    pose proof (Hbefore 1%nat x1 ltac:(lia) eq_refl) as B1.
    destruct (strconv_Atoi (Wizard.Value x1)) as [n1 e1].
    cbn [snd] in B1. subst e1. rewrite He.
    eexists. split; [reflexivity |].
    cbn [Wizard.set_core Wizard.core Wizard.set_state Wizard.set_err
         Wizard.set_config err state processing result fieldLabel].
    unfold Fmt.Errorf. cbn [Fmt.Sprintf Fmt.directive Fmt.formatArg].
    rewrite append_empty. repeat split.
  - injection Hx as ->.
    pose proof (Hbefore 1%nat x1 ltac:(lia) eq_refl) as B1.
    pose proof (Hbefore 2%nat x2 ltac:(lia) eq_refl) as B2.
    destruct (strconv_Atoi (Wizard.Value x1)) as [n1 e1].
    destruct (strconv_Atoi (Wizard.Value x2)) as [n2 e2].
    cbn [snd] in B1, B2. subst e1 e2. rewrite He.
    eexists. split; [reflexivity |].
    cbn [Wizard.set_core Wizard.core Wizard.set_state Wizard.set_err
         Wizard.set_config err state processing result fieldLabel].
    unfold Fmt.Errorf. cbn [Fmt.Sprintf Fmt.directive Fmt.formatArg].
    rewrite append_empty. repeat split.
Qed.

(** Ctrl+C quits from every state, also a broken one: the model is
    quitting, the command is Quit, no file is touched, and the screen
    says so. *)
Theorem ctrl_c_quits (fs : FileSystem) w (runes : string) :
  exists w',
    Wizard.Update W fs w (Wizard.KeyMsg Wizard.KeyCtrlC runes)
    = Some (fs, w', Wizard.cmd_Quit)
    /\ quitting (Wizard.core w') = true
    /\ Wizard.inputs w' = Wizard.inputs w
    /\ View glamour_Render wizardView (Wizard.core w') = "Exiting..." ++ nl.
Proof. eexists. repeat split. Qed.

(** While the model is processing, ticks alone move the spinner, one
    frame a tick and round the ten frames: after [n] ticks the frame index
    is the old one plus [n], modulo 10, and the spinner is the frame at
    that index. *)
Theorem ticks_cycle (fs : FileSystem) w (msgs : list Wizard.tea_Msg) :
  wizard_ok w ->
  processing (Wizard.core w) = true ->
  Forall isTick msgs ->
  exists w',
    Wizard.run W fs w msgs = Some (fs, w')
    /\ Wizard.spinnerFrame w'
       = (Wizard.spinnerFrame w + Z.of_nat (length msgs)) mod 10
    /\ (msgs <> [] ->
        spinnerFrames !! Z.to_nat (Wizard.spinnerFrame w')
        = Some (spinner (Wizard.core w')))
    /\ Wizard.inputs w' = Wizard.inputs w
    /\ Wizard.focused w' = Wizard.focused w.
Proof.
  intros Hok Hp Hticks. revert w Hok Hp.
  induction Hticks as [|msg msgs Hmsg _ IH]; intros w Hok Hp.
  - exists w. split; [reflexivity |].
    destruct Hok as (_ & _ & Hs). cbn [length Z.of_nat].
    rewrite Z.add_0_r, Z.mod_small by lia. repeat split. congruence.
  - destruct msg as [| | t | |]; try contradiction.
    destruct (tick_spec W fs w t Hok Hp) as (frame & Hframe & Hu).
    cbn [Wizard.run]. rewrite Hu. cbn [mbind option_bind].
    set (w1 := Wizard.set_core
                 (Wizard.set_spinnerFrame w ((Wizard.spinnerFrame w + 1) mod 10))
                 (Wizard.set_spinner (Wizard.core w) frame)).
    assert (Hok1 : wizard_ok w1).
    { destruct Hok as (Hlen & Hf & Hs).
      pose proof (Z.mod_pos_bound (Wizard.spinnerFrame w + 1) 10 ltac:(lia)).
      repeat split; try assumption; cbn; lia. }
    destruct (IH w1 Hok1 Hp) as (w' & Hrun & Hsf & Hsp & Hi & Hf).
    exists w'. split; [exact Hrun |]. split; [| split; [| split]].
    + rewrite Hsf. cbn [w1 Wizard.set_core Wizard.set_spinnerFrame
                        Wizard.spinnerFrame length].
      rewrite Zplus_mod_idemp_l. f_equal. lia.
    + intros _. destruct msgs as [|msg' msgs'].
      * cbn [Wizard.run] in Hrun. injection Hrun as <-. exact Hframe.
      * apply Hsp. discriminate.
    + exact Hi.
    + exact Hf.
Qed.

(** While processing, and once done, the wizard takes no key but Ctrl+C:
    every other key, and every message of no case, leaves the model as it
    is and gives no command. *)
Theorem done_ignores_keys (fs : FileSystem) w (msg : Wizard.tea_Msg) :
  state (Wizard.core w) = inputStateProcessing
  \/ state (Wizard.core w) = inputStateDone ->
  passive msg ->
  Wizard.Update W fs w msg = Some (fs, w, Wizard.cmd_nil).
Proof.
  intros Hst Hmsg.
  destruct msg as [key runes | | | | tag]; try contradiction.
  - destruct key; try contradiction;
      cbn [Wizard.Update]; unfold Wizard.backward, Wizard.toWidget;
      destruct Hst as [Hst | Hst];
      rewrite ?Hst; cbn [mbind option_bind]; rewrite ?Hst; reflexivity.
  - cbn [Wizard.Update mbind option_bind]. unfold Wizard.toWidget.
    destruct Hst as [-> | ->]; reflexivity.
Qed.

End WizardSessions.

Lemma validateNumber_gap_witness :
  validateNumber "-12" = None
  /\ (validateNumber "" = None /\ (strconv_Atoi "").2 <> None)
  /\ validateNumber "1x" = Some "must be a number".
Proof.
  split; [| split].
  - destruct (validateNumber_gap "-12") as [Htaken _].
    apply Htaken. reflexivity.
  - destruct (validateNumber_gap "") as (_ & Hgap & _).
    apply Hgap. reflexivity.
  - destruct (validateNumber_gap "1x") as (_ & _ & Hrefused).
    apply Hrefused; discriminate.
Defined.

Lemma tab_then_shift_tab_witness :
  exists w',
    Wizard.run plainWidgets writableFS (Wizard.initialModel plainWidgets)
      [Wizard.KeyMsg Wizard.KeyTab ""; Wizard.KeyMsg Wizard.KeyShiftTab ""]
    = Some (writableFS, w')
    /\ Wizard.focused w' = Wizard.focused (Wizard.initialModel plainWidgets)
    /\ state (Wizard.core w') = inputStateText.
Proof.
  apply (tab_then_shift_tab plainWidgets writableFS
           (Wizard.initialModel plainWidgets) "" "").
  - repeat split; cbn; lia.
  - reflexivity.
Defined.

Lemma submit_starts_processing_witness :
  Wizard.Update plainWidgets writableFS ready (Wizard.KeyMsg Wizard.KeyEnter "")
  = Some (writableFS,
          Wizard.set_core ready
            (Wizard.set_state
               (Wizard.set_processing
                  (Wizard.set_config (Wizard.core ready)
                     {| AppName := Wizard.Value (filled 0);
                        ExpectedLoad := 350; DataSize := 60;
                        NetworkTraffic := 30; ImportanceLevel := "high" |})
                  true)
               inputStateProcessing),
          Wizard.cmd_Batch
            (Wizard.cmd_process
               {| AppName := Wizard.Value (filled 0);
                  ExpectedLoad := 350; DataSize := 60;
                  NetworkTraffic := 30; ImportanceLevel := "high" |})
            Wizard.cmd_tick).
Proof.
  apply (submit_starts_processing plainWidgets writableFS ready "high" ""
           (filled 0) (filled 1) (filled 2) (filled 3) 350 60 30);
    reflexivity.
Defined.

Lemma submit_reports_first_bad_field_witness :
  exists w',
    Wizard.Update plainWidgets writableFS unready
      (Wizard.KeyMsg Wizard.KeyEnter "")
    = Some (writableFS, w', Wizard.cmd_nil)
    /\ err (Wizard.core w')
       = Some ("invalid " ++ fieldLabel 1 ++ ": "
               ++ NumError_Error (Wizard.strconv_Quote plainWidgets)
                    (Wizard.Value (blank 1)) ErrSyntax).
Proof.
  destruct (submit_reports_first_bad_field plainWidgets writableFS
              unready "high" "" 1 (blank 1) 0 ErrSyntax)
    as (w' & Hu & He & _).
  - reflexivity.
  - reflexivity.
  - reflexivity.
  - lia.
  - reflexivity.
  - reflexivity.
  - intros j y Hj. lia.
  - exists w'. split; [exact Hu | exact He].
Defined.

Lemma ticks_cycle_witness :
  exists w',
    Wizard.run plainWidgets writableFS busy twelveTicks = Some (writableFS, w')
    /\ Wizard.spinnerFrame w'
       = (Wizard.spinnerFrame busy + Z.of_nat (length twelveTicks)) mod 10.
Proof.
  destruct (ticks_cycle plainWidgets writableFS busy twelveTicks)
    as (w' & Hrun & Hframe & _).
  - repeat split; cbn; lia.
  - reflexivity.
  - repeat constructor.
  - exists w'. split; [exact Hrun | exact Hframe].
Defined.

Lemma done_ignores_keys_witness :
  Wizard.Update plainWidgets writableFS busy (Wizard.KeyMsg Wizard.KeyEnter "")
  = Some (writableFS, busy, Wizard.cmd_nil).
Proof.
  apply (done_ignores_keys plainWidgets writableFS busy
           (Wizard.KeyMsg Wizard.KeyEnter "")).
  - left. reflexivity.
  - exact I.
Defined.

(** The example session, evaluated: the keys lead to the list with the
    four texts typed, Enter there starts the processing of the example's
    configuration, and twelve ticks later the spinner is at its third
    frame. *)
Example wizard_session :
  Wizard.Value <$> Wizard.inputs atList = Wizard.Value <$> Wizard.inputs ready
  /\ Wizard.focus <$> Wizard.inputs atList = [false; false; false; false]
  /\ state (Wizard.core atList) = inputStateList
  /\ Wizard.focused atList = 3
  /\ (config <$>
        (Wizard.core <$>
           (snd <$>
              (fst <$> Wizard.Update plainWidgets writableFS atList
                         (Wizard.KeyMsg Wizard.KeyEnter "")))))
     = Some (computeExample "web" 30)
  /\ (Wizard.spinnerFrame <$>
        (snd <$> Wizard.run plainWidgets writableFS busy twelveTicks))
     = Some 2.
Proof. repeat split; vm_compute; reflexivity. Qed.

(** ** The highlighting *)

Section Highlight.

Variable W : Wizard.Widgets.
Hypothesis Hkeeps : keeps_look W.

Implicit Types w : Wizard.wizard W.

(** Both answers of the processing leave the model done. *)
Lemma Update_done (join : string -> string -> string) (fs : FileSystem)
    (m : model) (msg : Msg) :
  state (Update join fs m msg).1.2 = inputStateDone.
Proof.
  destruct msg as [r | e]; [| reflexivity].
  unfold Update.
  match goal with
  | |- context [generateAndWriteManifest join fs ?m1] =>
      assert (Hs : state (generateAndWriteManifest join fs m1).1.2
                   = inputStateDone)
  end.
  { unfold generateAndWriteManifest, os_MkdirAll, os_WriteFile.
    cbn [result].
    destruct r; [| reflexivity].
    destruct (mkdirAllError fs); [reflexivity |].
    cbn [writeFileError]. destruct (writeFileError fs); reflexivity. }
  destruct (generateAndWriteManifest join fs _) as [[fs' m'] [e |]];
    cbn [fst snd] in Hs |- *; exact Hs.
Qed.

(** Case analysis on what the widgets, the list's selection, [Atoi] and
    the answer's [Update] return. *)
Ltac widget_cases :=
  repeat match goal with
  | |- context [Wizard.textinput_Update W ?x ?m] =>
      let P := fresh "P" in
      let x' := fresh "x'" in
      let c := fresh "c" in
      pose proof (Hkeeps x m) as P;
      destruct (Wizard.textinput_Update W x m) as [x' c];
      cbn [fst] in P
  | |- context [Wizard.list_Update W ?l ?m] =>
      destruct (Wizard.list_Update W l m)
  | |- context [Wizard.list_SelectedItem W ?l] =>
      destruct (Wizard.list_SelectedItem W l)
  | |- context [strconv_Atoi ?s] =>
      destruct (strconv_Atoi s) as [? [? |]]
  | |- context [Update ?j ?fs ?m ?a] =>
      let D := fresh "D" in
      pose proof (Update_done j fs m a) as D;
      destruct (Update j fs m a) as [[? ?] ?];
      cbn [fst snd] in D
  | |- context [atIndex spinnerFrames ?i] =>
      destruct (atIndex spinnerFrames i)
  end.

Ltac lists_agree :=
  solve [ congruence | left; congruence | right; congruence ].

Ltac close_highlight HJ :=
  first
    [ exact I
    | exact HJ
    | try match goal with
          | D : state ?m = inputStateDone |- _ => rewrite D
          end;
      cbv [spot Z.eqb Pos.eqb] in *;
      cbn [look Wizard.focus Wizard.PromptStyle Wizard.TextStyle state] in *;
      let H1 := fresh "H1" in
      let H2 := fresh "H2" in
      let H3 := fresh "H3" in
      destruct HJ as (H1 & H2 & H3);
      try specialize (H2 eq_refl);
      try specialize (H3 (or_introl eq_refl));
      try specialize (H3 (or_intror eq_refl));
      split; [| split];
      try (intros ?; try discriminate);
      try match goal with
          | H : _ \/ _ |- _ => destruct H; try discriminate
          end;
      try lists_agree;
      destruct H1; lists_agree ].

(** One message keeps the highlighting: every state, focus index and
    message in turn, on four inputs. *)
Lemma Update_keeps_highlight (fs : FileSystem) w (msg : Wizard.tea_Msg) :
  wizard_ok w -> highlighted w ->
  match Wizard.Update W fs w msg with
  | Some (_, w', _) => highlighted w'
  | None => True
  end.
Proof.
  intros (Hlen & Hf & _) HJ.
  destruct w as [m inputs lst focused frame wd ht].
  cbn [Wizard.inputs Wizard.focused] in Hlen, Hf.
  destruct inputs as [|a [|b [|c [|d [|? ?]]]]]; try discriminate. clear Hlen.
  unfold highlighted in HJ |- *.
  cbn [Wizard.inputs Wizard.focused Wizard.core fmap list_fmap] in HJ.
  assert (Hfocus : focused = 0 \/ focused = 1 \/ focused = 2 \/ focused = 3)
    by lia.
  clear Hf.
  destruct m as [st q cfg busy sp res er path out].
  cbn [state] in HJ.
  destruct msg as [key runes | answer | t | Width Height | tag].
  1: destruct key.
  8: { cbn [Wizard.Update Wizard.core].
       widget_cases.
       cbn [Wizard.set_core Wizard.core Wizard.inputs Wizard.focused fmap
            list_fmap].
       rewrite D. destruct HJ as (H1 & _ & _).
       split; [exact H1 |]. split; [discriminate | intros [|]; discriminate]. }
  8: { cbn [Wizard.Update Wizard.core processing].
       destruct busy.
       - cbn [Wizard.set_spinnerFrame Wizard.spinnerFrame Wizard.core].
         generalize (Z.rem (Int.add frame 1) (Z.of_nat (length spinnerFrames))).
         intros z. destruct (atIndex spinnerFrames z); [| exact I].
         cbn [mbind option_bind]. exact HJ.
       - destruct st; destruct Hfocus as [-> | [-> | [-> | ->]]];
           cbv -[look spot Wizard.textinput_Update Wizard.list_Update];
           widget_cases; close_highlight HJ. }
  8: { cbn [Wizard.Update].
       match goal with
       | |- context [int_sub ?h 10] => generalize (int_sub h 10); intros z
       end.
       destruct st; destruct Hfocus as [-> | [-> | [-> | ->]]];
         cbv -[look spot Wizard.textinput_Update Wizard.list_Update
               Wizard.list_SetWidth Wizard.list_SetHeight];
         widget_cases; close_highlight HJ. }
  all: destruct st; destruct Hfocus as [-> | [-> | [-> | ->]]];
    cbv -[look spot Wizard.textinput_Update Wizard.list_Update
          Wizard.list_SelectedItem Wizard.strconv_Quote strconv_Atoi
          Fmt.Errorf NumError_Error];
    widget_cases; close_highlight HJ.
Qed.

(** With text inputs that leave their focus flag and styles alone, every
    session from the initial model keeps the highlighting: no input is
    lit but the one at the focus index, in the text state that one is
    lit, and on the list and while processing none is. *)
Theorem highlight_follows_focus (fs : FileSystem)
    (msgs : list Wizard.tea_Msg) :
  exists fs' w',
    Wizard.run W fs (Wizard.initialModel W) msgs = Some (fs', w')
    /\ highlighted w'.
Proof.
  assert (Hinit : wizard_ok (Wizard.initialModel W)
                  /\ highlighted (Wizard.initialModel W)).
  { split; [repeat split; cbn; lia |].
    repeat split; try reflexivity; try (left; reflexivity);
      intros [|]; discriminate. }
  revert Hinit. generalize (Wizard.initialModel W) as w. revert fs.
  induction msgs as [|msg msgs IH]; intros fs w [Hok HJ].
  - exists fs, w. split; [reflexivity | assumption].
  - destruct (Update_keeps_ok W fs w msg Hok) as (fs1 & w1 & cmd & Hu & Hok1).
    pose proof (Update_keeps_highlight fs w msg Hok HJ) as HJ1.
    rewrite Hu in HJ1.
    cbn [Wizard.run]. rewrite Hu. cbn [mbind option_bind].
    by apply IH.
Qed.

End Highlight.

Lemma highlight_follows_focus_witness :
  exists fs' w',
    Wizard.run plainWidgets writableFS (Wizard.initialModel plainWidgets)
      exampleKeys
    = Some (fs', w')
    /\ highlighted w'.
Proof.
  apply (highlight_follows_focus plainWidgets).
  intros x msg. destruct msg as [key runes | | | |]; try reflexivity.
  destruct key; reflexivity.
Defined.
